(** * Session pipeline of the sales-review front end (src/App.tsx)

    A shallow embedding of the [App] component: its React state, the
    synchronous handlers, and the two asynchronous handlers
    ([handleCompileAndReview], [handleFinalSubmit]) cut at their [await]
    points, so that other handlers (in particular [handleReset]) can run
    while an operation is in flight. *)

From Stdlib Require Import Ascii.
From stdpp Require Import base decidable option list strings numbers pretty gmap.

Local Open Scope string_scope.
Local Open Scope list_scope.

(** ** Data *)

(** A browser [File].  [ref] stands for the identity of the object:
    two [File] values are the same JavaScript object exactly when their
    [ref]s agree, and then they agree on [name] and [size] as well, so
    [===] on files is equality of these records. *)
Record File := mkFile {
  ref : nat;
  name : string;
  size : N
}.

#[global] Instance File_eq_dec : EqDecision File.
Proof. solve_decision. Defined.

(** ** File set (lines 34-45) *)

(** [existingFile.name === newFile.name && existingFile.size === newFile.size] *)
Definition samePair (existingFile newFile : File) : Prop :=
  name existingFile = name newFile ∧ size existingFile = size newFile.

#[global] Instance samePair_dec a b : Decision (samePair a b).
Proof. unfold samePair. apply _. Defined.

(** [prevFiles.some(existingFile => ...)] *)
Definition somePair (prevFiles : list File) (newFile : File) : Prop :=
  Exists (λ existingFile, samePair existingFile newFile) prevFiles.

#[global] Instance somePair_dec l f : Decision (somePair l f).
Proof. unfold somePair. apply _. Defined.

(** The updater passed to [setFiles] in [handleFilesAdded]. *)
Definition filesAdded (newFiles prevFiles : list File) : list File :=
  let uniqueNewFiles := filter (λ newFile, ¬ somePair prevFiles newFile) newFiles in
  prevFiles ++ uniqueNewFiles.

(** The updater passed to [setFiles] in [handleRemoveFile]. *)
Definition removeFile (fileToRemove : File) (prevFiles : list File) : list File :=
  filter (λ file, file ≠ fileToRemove) prevFiles.

(** ** The document container (pdf-lib, an external collaborator)

    A document is the sequence of its pages; a page is opaque to the
    application and is represented by a label. *)
Definition Page := string.
Abbreviation PDFDocument := (list Page).

(** Modelled from the spec: pdf-lib is not part of the sources.  Its
    capability [create-empty-document] gives a document without pages. *)
Definition create : PDFDocument := [].

(** Modelled from the spec: pdf-lib is not part of the sources.
    [page-indices(document-handle)] is the ordered sequence of the
    document's page indices. *)
Definition getPageIndices (doc : PDFDocument) : list nat :=
  seq 0 (length doc).

(** Modelled from the spec: pdf-lib is not part of the sources.
    [copy-pages(target, source, indices)] gives the source's pages at the
    requested indices, in the order requested; an index that the source
    does not have contributes no page. *)
Definition copyPages (source : PDFDocument) (indices : list nat) : list Page :=
  omap (λ i, source !! i) indices.

(** Modelled from the spec: pdf-lib is not part of the sources.
    [append-page(target, page-handle)] puts the page at the end. *)
Definition addPage (target : PDFDocument) (page : Page) : PDFDocument :=
  target ++ [page].

(** The empty page that [save] gives to a document without pages. *)
Definition blankPage : Page := "".

(** Modelled from the spec: pdf-lib is not part of the sources.
    [serialize(target)] gives the bytes of the document, represented by
    the pages they hold.  pdf-lib's [save], called with its default
    options as on line 93, first adds one empty page to a document that
    has none. *)
Definition save (doc : PDFDocument) : PDFDocument :=
  match doc with
  | [] => [blankPage]
  | _ :: _ => doc
  end.

(** One pass of the loop body after the file has been read and parsed
    (lines 89-90):
    [copiedPages = await mergedPdf.copyPages(pdfToMerge, pdfToMerge.getPageIndices());
     copiedPages.forEach(page => mergedPdf.addPage(page))]. *)
Definition mergeInto (mergedPdf pdfToMerge : PDFDocument) : PDFDocument :=
  let copiedPages := copyPages pdfToMerge (getPageIndices pdfToMerge) in
  foldl addPage mergedPdf copiedPages.

(** [new Blob([mergedPdfBytes], { type })]: the saved bytes are
    represented by the document they serialise. *)
Record Blob := mkBlob {
  blobParts : PDFDocument;
  blobType : string
}.

(** ** Thrown values *)

Inductive Thrown :=
| DOMException (message exnName : string)
| Error (message : string)
| NotAnError.

(** [error instanceof DOMException && error.name === 'AbortError'] *)
Definition isAbortError (error : Thrown) : bool :=
  match error with
  | DOMException _ n => bool_decide (n = "AbortError")
  | _ => false
  end.

(** [error instanceof Error], with [error.message] when it holds
    (a [DOMException] is an [Error] in browsers). *)
Definition errorMessage (error : Thrown) : option string :=
  match error with
  | DOMException m _ => Some m
  | Error m => Some m
  | NotAnError => None
  end.

(** ** Component state (lines 24-32) *)

Inductive StatusType := success | error.

(** [UploadStatus] of ./types, as App.tsx uses it; [None] is [null]. *)
Record UploadStatus := mkStatus {
  type : option StatusType;
  message : string
}.

Definition noStatus : UploadStatus := mkStatus None "".

(** The six [useState] cells and the [useRef] cell.  An
    [AbortController] is an object on the heap: [controllers] holds the
    [aborted] flag of every controller created so far, a controller is
    named by its index, and [abortControllerRef] is the ref's [current]
    ([None] for [null]). *)
Record AppState := mkApp {
  sessionName : string;
  files : list File;
  isProcessing : bool;
  uploadStatus : UploadStatus;
  isPreviewOpen : bool;
  compiledPdfBlob : option Blob;
  abortControllerRef : option nat;
  controllers : list bool
}.

Definition initialState : AppState :=
  mkApp "" [] false noStatus false None None [].

Definition setSessionName (v : string) (s : AppState) : AppState :=
  mkApp v (files s) (isProcessing s) (uploadStatus s) (isPreviewOpen s)
        (compiledPdfBlob s) (abortControllerRef s) (controllers s).

Definition setFiles (upd : list File → list File) (s : AppState) : AppState :=
  mkApp (sessionName s) (upd (files s)) (isProcessing s) (uploadStatus s)
        (isPreviewOpen s) (compiledPdfBlob s) (abortControllerRef s) (controllers s).

Definition setIsProcessing (v : bool) (s : AppState) : AppState :=
  mkApp (sessionName s) (files s) v (uploadStatus s) (isPreviewOpen s)
        (compiledPdfBlob s) (abortControllerRef s) (controllers s).

Definition setUploadStatus (v : UploadStatus) (s : AppState) : AppState :=
  mkApp (sessionName s) (files s) (isProcessing s) v (isPreviewOpen s)
        (compiledPdfBlob s) (abortControllerRef s) (controllers s).

Definition setIsPreviewOpen (v : bool) (s : AppState) : AppState :=
  mkApp (sessionName s) (files s) (isProcessing s) (uploadStatus s) v
        (compiledPdfBlob s) (abortControllerRef s) (controllers s).

Definition setCompiledPdfBlob (v : option Blob) (s : AppState) : AppState :=
  mkApp (sessionName s) (files s) (isProcessing s) (uploadStatus s)
        (isPreviewOpen s) v (abortControllerRef s) (controllers s).

(** [abortControllerRef.current = new AbortController()] *)
Definition newAbortController (s : AppState) : AppState :=
  mkApp (sessionName s) (files s) (isProcessing s) (uploadStatus s)
        (isPreviewOpen s) (compiledPdfBlob s)
        (Some (length (controllers s))) (controllers s ++ [false]).

(** [abortControllerRef.current?.abort()] *)
Definition abortCurrent (s : AppState) : AppState :=
  match abortControllerRef s with
  | Some c =>
      mkApp (sessionName s) (files s) (isProcessing s) (uploadStatus s)
            (isPreviewOpen s) (compiledPdfBlob s)
            (abortControllerRef s) (<[c := true]> (controllers s))
  | None => s
  end.

(** [signal.aborted] for the signal of controller [signal]. *)
Definition aborted (signal : nat) (s : AppState) : bool :=
  default false (controllers s !! signal).

(** ** Synchronous handlers (lines 34-64) *)

Definition handleFilesAdded (newFiles : list File) (s : AppState) : AppState :=
  setFiles (filesAdded newFiles) s.

Definition handleRemoveFile (fileToRemove : File) (s : AppState) : AppState :=
  setFiles (removeFile fileToRemove) s.

Definition handleToastClose (s : AppState) : AppState :=
  setUploadStatus noStatus s.

Definition handleClosePreview (s : AppState) : AppState :=
  setCompiledPdfBlob None (setIsPreviewOpen false s).

Definition handleReset (s : AppState) : AppState :=
  setUploadStatus noStatus
    (handleClosePreview
       (setIsProcessing false
          (setFiles (λ _, [])
             (setSessionName "" (abortCurrent s))))).

(** ** Compile (lines 66-111)

    The handler runs synchronously up to an [await]; what remains is a
    task that is resumed when the awaited promise settles.  Between the
    two, any other handler may run.  The task carries what the closure
    captured: the signal of its own controller and the [files] of the
    render in which it was started. *)

Inductive CompileTask :=
| AwaitCreate (signal : nat) (files : list File)
    (* at [await PDFDocument.create()] *)
| AwaitFile (signal : nat) (file : File) (rest : list File) (mergedPdf : PDFDocument)
    (* inside the loop body for [file], at [readFileAsArrayBuffer],
       [PDFDocument.load] or [copyPages]: nothing of the component is read
       or written between these three *)
| AwaitSave (signal : nat) (mergedPdf : PDFDocument).
    (* at [await mergedPdf.save()] *)

(** How the awaits of one loop body settle: the reader rejects (with the
    reader's event, which is not an [Error]), the parser throws, or the
    file is read and parsed into a document. *)
Inductive FileOutcome :=
| ReadRejected
| LoadThrew (message : string)
| Loaded (pdfToMerge : PDFDocument).

Inductive CompileSettled :=
| Created
| FileSettled (o : FileOutcome)
| Saved.

(** The [catch] block, lines 99-105. *)
Definition compileCatch (e : Thrown) (s : AppState) : AppState :=
  if isAbortError e then s
  else
    let errorMessage :=
      match errorMessage e with
      | Some m => "Failed to process files: " +:+ m
      | None => "An unknown error occurred during file processing."
      end in
    setUploadStatus (mkStatus (Some error) errorMessage) s.

(** The [finally] block, lines 106-110 (and 152-156). *)
Definition finallyBlock (signal : nat) (s : AppState) : AppState :=
  if aborted signal s then s else setIsProcessing false s.

(** Lines 93-97, entered when the loop has no file left. *)
Definition compileFinish (signal : nat) (mergedPdf : PDFDocument) (s : AppState)
  : AppState :=
  let mergedPdfBytes := save mergedPdf in
  let blob := mkBlob mergedPdfBytes "application/pdf" in
  finallyBlock signal (setIsPreviewOpen true (setCompiledPdfBlob (Some blob) s)).

(** The head of the [for] loop, lines 81-85: with no file left the
    handler goes on to [save]; otherwise it checks the signal and either
    throws or starts reading the next file. *)
Definition loopHead (signal : nat) (rest : list File) (mergedPdf : PDFDocument)
    (s : AppState) : AppState * option CompileTask :=
  match rest with
  | [] => (s, Some (AwaitSave signal mergedPdf))
  | file :: rest' =>
      if aborted signal s then
        (finallyBlock signal
           (compileCatch (DOMException "Aborted by user" "AbortError") s), None)
      else (s, Some (AwaitFile signal file rest' mergedPdf))
  end.

(** [!sessionName || files.length === 0 || isProcessing] (lines 68, 159) *)
Definition isSubmitDisabled (s : AppState) : bool :=
  bool_decide (sessionName s = "") || bool_decide (length (files s) = 0)
  || isProcessing s.

Definition handleCompileAndReview (s : AppState) : AppState * option CompileTask :=
  if isSubmitDisabled s then (s, None)
  else
    let signal := length (controllers s) in
    (setUploadStatus noStatus (setIsProcessing true (newAbortController s)),
     Some (AwaitCreate signal (files s))).

Definition compileResume (task : CompileTask) (v : CompileSettled) (s : AppState)
  : AppState * option CompileTask :=
  match task, v with
  | AwaitCreate signal files, Created => loopHead signal files create s
  | AwaitFile signal file rest mergedPdf, FileSettled o =>
      match o with
      | ReadRejected => (finallyBlock signal (compileCatch NotAnError s), None)
      | LoadThrew m => (finallyBlock signal (compileCatch (Error m) s), None)
      | Loaded pdfToMerge => loopHead signal rest (mergeInto mergedPdf pdfToMerge) s
      end
  | AwaitSave signal mergedPdf, Saved => (compileFinish signal mergedPdf s, None)
  | _, _ => (s, Some task)
  end.

(** A compile that nothing interleaves with: the task is resumed with
    each settled value in turn. *)
Fixpoint compileRun (vs : list CompileSettled) (st : AppState * option CompileTask)
  : AppState * option CompileTask :=
  match vs, st with
  | v :: vs', (s, Some task) => compileRun vs' (compileResume task v s)
  | _, _ => st
  end.

(** ** Submit (lines 113-157) *)

Record Response := mkResponse {
  status : N;
  statusText : string
}.

(** [response.ok]: the status is in the range 200-299. *)
Definition ok (r : Response) : bool :=
  bool_decide (200 ≤ status r)%N && bool_decide (status r ≤ 299)%N.

(** What the network does with the request: it answers, or the call fails. *)
Inductive FetchOutcome :=
| Responded (response : Response)
| Rejected (e : Thrown).

(** Modelled from the spec: [fetch] is the browser's, not part of the
    sources.  The request supports external cancellation (abort on
    signal): once the signal is aborted the pending promise rejects with
    an [AbortError]; otherwise it settles with what the network did. *)
Definition fetch (signal : nat) (net : FetchOutcome) (s : AppState) : FetchOutcome :=
  if aborted signal s
  then Rejected (DOMException "The operation was aborted." "AbortError")
  else net.

Inductive SubmitTask :=
| AwaitFetch (signal : nat)
    (* at [await fetch(WEBHOOK_URL, ...)] *)
| AwaitText (signal : nat) (response : Response).
    (* at [await response.text()] *)

(** [fetch] settles with what the network did; [response.text()]
    resolves with the body or rejects. *)
Inductive SubmitSettled :=
| FetchSettled (net : FetchOutcome)
| TextSettled (errorText : string)
| TextRejected (e : Thrown).

(** The [catch] block, lines 145-151. *)
Definition submitCatch (e : Thrown) (s : AppState) : AppState :=
  if isAbortError e then
    setUploadStatus (mkStatus (Some error) "Submission cancelled.") s
  else
    let errorMessage :=
      match errorMessage e with
      | Some m => m
      | None => "An unknown error occurred."
      end in
    setUploadStatus (mkStatus (Some error) errorMessage) s.

(** Lines 140-143. *)
Definition submitSucceeded (s : AppState) : AppState :=
  handleClosePreview
    (setFiles (λ _, [])
       (setSessionName ""
          (setUploadStatus
             (mkStatus (Some success) "Upload successful! Your merged PDF was sent.") s))).

(** The request body is built from the values captured at the start and
    nothing of it is read back, so the task keeps the signal only. *)
Definition handleFinalSubmit (s : AppState) : AppState * option SubmitTask :=
  if bool_decide (compiledPdfBlob s = None) || bool_decide (sessionName s = "")
     || isProcessing s
  then (s, None)
  else
    let signal := length (controllers s) in
    (setIsProcessing true (newAbortController s), Some (AwaitFetch signal)).

(** Reading the body with [response.text()] belongs to the same request:
    with the signal aborted it rejects with the same [AbortError];
    with the signal clear it resolves with the body or is rejected with
    a value of its own. *)
Definition submitResume (task : SubmitTask) (v : SubmitSettled) (s : AppState)
  : AppState * option SubmitTask :=
  match task, v with
  | AwaitFetch signal, FetchSettled net =>
      match fetch signal net s with
      | Rejected e => (finallyBlock signal (submitCatch e s), None)
      | Responded response =>
          if ok response then (finallyBlock signal (submitSucceeded s), None)
          else (s, Some (AwaitText signal response))
      end
  | AwaitText signal response, TextSettled errorText =>
      if aborted signal s then
        (finallyBlock signal
           (submitCatch (DOMException "The operation was aborted." "AbortError") s),
         None)
      else
        let msg := "Upload failed: " +:+ pretty (status response) +:+ " "
                   +:+ statusText response +:+ ". " +:+ errorText in
        (finallyBlock signal (submitCatch (Error msg) s), None)
  | AwaitText signal response, TextRejected e =>
      if aborted signal s then
        (finallyBlock signal
           (submitCatch (DOMException "The operation was aborted." "AbortError") s),
         None)
      else (finallyBlock signal (submitCatch e s), None)
  | _, _ => (s, Some task)
  end.

(** ** The derived file name and the request (lines 122-127)

    A string is a sequence of code units; session names are taken over
    the code units 0-255, among which the class [\s] of JavaScript holds
    the tab, line feed, vertical tab, form feed, carriage return, space
    and no-break space. *)
Definition isWhitespace (c : ascii) : bool :=
  let n := N_of_ascii c in
  ((9 <=? n) && (n <=? 13) || (n =? 32) || (n =? 160))%N.

(** [str.replace(/\s+/g, '_')]: every maximal run of whitespace is
    replaced by one underscore.  [inRun] tells that the code unit before
    belongs to a run that has been replaced already. *)
Fixpoint replaceRuns (inRun : bool) (str : string) : string :=
  match str with
  | EmptyString => EmptyString
  | String c rest =>
      if isWhitespace c then
        if inRun then replaceRuns true rest
        else String "_" (replaceRuns true rest)
      else String c (replaceRuns false rest)
  end.

(** [`${sessionName.replace(/\s+/g, '_')}_compiled.pdf`] *)
Definition compiledFileName (sessionName : string) : string :=
  replaceRuns false sessionName +:+ "_compiled.pdf".

(** [new File([compiledPdfBlob], compiledFileName, { type })] *)
Record CompiledFile := mkCompiledFile {
  fileParts : Blob;
  fileName : string;
  fileType : string
}.

(** The two fields appended to the form data, lines 125-127. *)
Record FormData := mkFormData {
  fieldSessionName : string;
  fieldFile : CompiledFile;
  fieldFileName : string
}.

(** The body of the request that [handleFinalSubmit] sends, when it
    sends one. *)
Definition formData (s : AppState) : option FormData :=
  match compiledPdfBlob s with
  | Some compiledPdfBlob =>
      if bool_decide (sessionName s = "") || isProcessing s then None
      else
        let compiledFile :=
          mkCompiledFile compiledPdfBlob (compiledFileName (sessionName s))
                         "application/pdf" in
        Some (mkFormData (sessionName s) compiledFile (fileName compiledFile))
  | None => None
  end.

(** ** What is rendered (lines 159-174, 250-261) *)

(** [isProcessing && !isPreviewOpen]: the submit button shows
    "Processing Files...". *)
Definition showsProcessing (s : AppState) : bool :=
  isProcessing s && negb (isPreviewOpen s).

(** [uploadStatus.type && <Toast .../>] *)
Definition toastShown (s : AppState) : bool :=
  bool_decide (type (uploadStatus s) ≠ None).

(** [isPreviewOpen && compiledPdfBlob && <PreviewModal .../>] *)
Definition previewShown (s : AppState) : bool :=
  isPreviewOpen s && bool_decide (compiledPdfBlob s ≠ None).

(** ** The component with its operations in flight

    An asynchronous handler that has reached an [await] stays in flight
    until its promise settles.  Each one owns the controller it created,
    so the operations in flight are kept under the index of their
    controller.  Every event runs on the state the event before it left
    (the component has rendered in between). *)

Inductive Task :=
| CompileT (task : CompileTask)
| SubmitT (task : SubmitTask).

Definition compileSignal (task : CompileTask) : nat :=
  match task with
  | AwaitCreate signal _ => signal
  | AwaitFile signal _ _ _ => signal
  | AwaitSave signal _ => signal
  end.

Definition submitSignal (task : SubmitTask) : nat :=
  match task with
  | AwaitFetch signal => signal
  | AwaitText signal _ => signal
  end.

Definition taskSignal (t : Task) : nat :=
  match t with
  | CompileT task => compileSignal task
  | SubmitT task => submitSignal task
  end.

Record Sys := mkSys {
  component : AppState;
  inflight : gmap nat Task
}.

Definition initialSys : Sys := mkSys initialState ∅.

(** What can happen to the component: the operator's actions, and the
    settling of the promise an operation in flight waits for. *)
Inductive Event :=
| SessionNameChanged (v : string)
| FilesAdded (newFiles : list File)
| FileRemoved (fileToRemove : File)
| ToastClosed
| PreviewClosed
| ResetClicked
| FormSubmitted
| FinalSubmitClicked
| CompileSettles (signal : nat) (v : CompileSettled)
| SubmitSettles (signal : nat) (v : SubmitSettled).

(** An operation that goes on waiting stays under its controller; one
    that has ended is taken out. *)
Definition settled (signal : nat) (next : option Task) (m : gmap nat Task)
  : gmap nat Task :=
  match next with
  | Some t => <[signal := t]> m
  | None => delete signal m
  end.

Definition sysStep (σ : Sys) (e : Event) : Sys :=
  match e with
  | SessionNameChanged v => mkSys (setSessionName v (component σ)) (inflight σ)
  | FilesAdded newFiles => mkSys (handleFilesAdded newFiles (component σ)) (inflight σ)
  | FileRemoved fileToRemove =>
      mkSys (handleRemoveFile fileToRemove (component σ)) (inflight σ)
  | ToastClosed => mkSys (handleToastClose (component σ)) (inflight σ)
  | PreviewClosed => mkSys (handleClosePreview (component σ)) (inflight σ)
  | ResetClicked => mkSys (handleReset (component σ)) (inflight σ)
  | FormSubmitted =>
      match handleCompileAndReview (component σ) with
      | (s', Some task) =>
          mkSys s' (<[compileSignal task := CompileT task]> (inflight σ))
      | (s', None) => mkSys s' (inflight σ)
      end
  | FinalSubmitClicked =>
      match handleFinalSubmit (component σ) with
      | (s', Some task) =>
          mkSys s' (<[submitSignal task := SubmitT task]> (inflight σ))
      | (s', None) => mkSys s' (inflight σ)
      end
  | CompileSettles signal v =>
      match inflight σ !! signal with
      | Some (CompileT task) =>
          let '(s', next) := compileResume task v (component σ) in
          mkSys s' (settled signal (CompileT <$> next) (inflight σ))
      | _ => σ
      end
  | SubmitSettles signal v =>
      match inflight σ !! signal with
      | Some (SubmitT task) =>
          let '(s', next) := submitResume task v (component σ) in
          mkSys s' (settled signal (SubmitT <$> next) (inflight σ))
      | _ => σ
      end
  end.

Definition sysRun (es : list Event) (σ : Sys) : Sys := foldl sysStep σ es.

Definition reachable (σ : Sys) : Prop := ∃ es, σ = sysRun es initialSys.

(** An operation in flight is live while its own signal is not aborted. *)
Definition live (s : AppState) (signal : nat) : Prop := aborted signal s = false.

(** The identity under which [handleFilesAdded] compares files. *)
Definition pairOf (file : File) : string * N := (name file, size file).

(** [!/\s/.test(str)] *)
Fixpoint noWhitespace (str : string) : bool :=
  match str with
  | EmptyString => true
  | String c rest => negb (isWhitespace c) && noWhitespace rest
  end.

(** [/^\s+$/.test(str)] for a non-empty [str]: whitespace only. *)
Fixpoint onlyWhitespace (str : string) : bool :=
  match str with
  | EmptyString => true
  | String c rest => isWhitespace c && onlyWhitespace rest
  end.

(** [/^\s/.test(str)] *)
Definition startsWithWhitespace (str : string) : bool :=
  match str with
  | EmptyString => false
  | String c _ => isWhitespace c
  end.

(** What the specification describes for [remove]: delete the first
    entry with the same (name, size) pair as the argument. *)
Fixpoint removeFirstSamePair (file : File) (l : list File) : list File :=
  match l with
  | [] => []
  | x :: r => if decide (samePair x file) then r else x :: removeFirstSamePair file r
  end.

(** The ref, when set, names a controller that exists. *)
Definition refValid (s : AppState) : Prop :=
  ∀ c, abortControllerRef s = Some c → c < length (controllers s).

(** The preview flag and the artifact go together, and an artifact is
    a PDF blob. *)
Definition previewConsistent (s : AppState) : Prop :=
  (isPreviewOpen s = true ↔ compiledPdfBlob s ≠ None)
  ∧ ∀ blob, compiledPdfBlob s = Some blob → blobType blob = "application/pdf".

(** What relates the operations in flight to the state: each is kept
    under its own signal, which names a controller that exists; a live
    one owns the controller the ref points to; and the processing flag
    is set exactly when one of them is live. *)
Definition sysInv (σ : Sys) : Prop :=
  refValid (component σ)
  ∧ (∀ c t, inflight σ !! c = Some t →
       taskSignal t = c ∧ c < length (controllers (component σ)))
  ∧ (∀ c t, inflight σ !! c = Some t → live (component σ) c →
       abortControllerRef (component σ) = Some c)
  ∧ (isProcessing (component σ) = true ↔
     ∃ c t, inflight σ !! c = Some t ∧ live (component σ) c).

(** ** Sample values *)

Definition f1 : File := mkFile 1 "q3.pdf" 2048.
Definition f2 : File := mkFile 2 "q3.pdf" 2048.
Definition f3 : File := mkFile 3 "notes.pdf" 512.

Definition withFiles (l : list File) : AppState :=
  mkApp "Q3 Sales Review" l false noStatus false None None [].

Definition previewing : AppState :=
  mkApp "Q3 Sales Review" [f1] false noStatus true
        (Some (mkBlob ["p1"] "application/pdf")) None [].

(** * Properties *)

(** ** File set *)

Example filesAdded_ex :
  filesAdded [mkFile 3 "a.pdf" 10; mkFile 4 "b.pdf" 7] [mkFile 1 "a.pdf" 10]
  = [mkFile 1 "a.pdf" 10; mkFile 4 "b.pdf" 7].
Proof. vm_compute. reflexivity. Qed.

Example removeFile_ex :
  removeFile (mkFile 1 "a.pdf" 10) [mkFile 1 "a.pdf" 10; mkFile 4 "b.pdf" 7]
  = [mkFile 4 "b.pdf" 7].
Proof. vm_compute. reflexivity. Qed.

Lemma removeFile_absent (file : File) (l : list File) :
  file ∉ l → removeFile file l = l.
Proof.
  unfold removeFile. induction l as [|x l IH]; intros Hnin; [done|].
  apply not_elem_of_cons in Hnin as [Hne Hl].
  rewrite filter_cons_True by congruence. by rewrite IH.
Qed.

Lemma removeFile_once (file : File) (l1 l2 : list File) :
  file ∉ l1 → file ∉ l2 → removeFile file (l1 ++ file :: l2) = l1 ++ l2.
Proof.
  intros H1 H2. unfold removeFile. rewrite filter_app, filter_cons_False by tauto.
  fold (removeFile file l1) (removeFile file l2).
  by rewrite !removeFile_absent.
Qed.

(** C8 (as amended): [handleRemoveFile] deletes every entry that is the
    same file object as its argument, whatever the (name, size) pairs
    are.  If the object is not in the set nothing changes; if it occurs
    once, exactly that entry goes and the length drops by one; in every
    case the remaining entries keep their relative order and the object
    is gone. *)
Theorem handleRemoveFile_by_identity (fileToRemove : File) (s : AppState) :
  (fileToRemove ∉ files s → handleRemoveFile fileToRemove s = s)
  ∧ (∀ l1 l2, files s = l1 ++ fileToRemove :: l2 →
       fileToRemove ∉ l1 → fileToRemove ∉ l2 →
       files (handleRemoveFile fileToRemove s) = l1 ++ l2
       ∧ S (length (files (handleRemoveFile fileToRemove s))) = length (files s))
  ∧ files (handleRemoveFile fileToRemove s) `sublist_of` files s
  ∧ (∀ x, x ∈ files (handleRemoveFile fileToRemove s)
          ↔ x ∈ files s ∧ x ≠ fileToRemove).
Proof.
  destruct s as [n fs p u o b r c].
  unfold handleRemoveFile, setFiles; cbn [files].
  split; [|split; [|split]].
  - intros Hnin. by rewrite removeFile_absent.
  - intros l1 l2 -> H1 H2. rewrite removeFile_once by done.
    split; [done|]. rewrite !length_app; cbn. lia.
  - apply sublist_filter.
  - intros x. unfold removeFile. rewrite list_elem_of_filter. tauto.
Qed.

Lemma handleRemoveFile_by_identity_witness :
  (f1 ∉ ([] : list File)) ∧ (f1 ∉ [f3])
  ∧ files (handleRemoveFile f1 (withFiles [f1; f3])) = [f3]
  ∧ handleRemoveFile f2 (withFiles [f1; f3]) = withFiles [f1; f3].
Proof.
  assert (H1 : f1 ∉ ([] : list File)) by apply not_elem_of_nil.
  assert (H3 : f1 ∉ [f3]).
  { intros H. apply list_elem_of_singleton in H. discriminate H. }
  assert (H2 : f2 ∉ files (withFiles [f1; f3])).
  { cbn. intros H. apply elem_of_cons in H as [H|H]; [discriminate H|].
    apply list_elem_of_singleton in H. discriminate H. }
  split; [exact H1|]. split; [exact H3|]. split.
  - exact (proj1 (proj1 (proj2 (handleRemoveFile_by_identity f1 (withFiles [f1; f3])))
                    [] [f3] eq_refl H1 H3)).
  - exact (proj1 (handleRemoveFile_by_identity f2 (withFiles [f1; f3])) H2).
Defined.

(** C8 as the specification words it does not hold: [f1] and [f2] are
    two file objects with the same (name, size) pair, both accepted by
    one add.  With [f2] as argument, the entry removed is [f2] itself,
    not the first entry with that pair ([f1]); and when only [f1] is in
    the set, removing [f2] changes nothing although an entry with an
    equal pair is present. *)
Lemma handleRemoveFile_not_structural :
  samePair f1 f2
  ∧ files (handleFilesAdded [f1; f2] (withFiles [])) = [f1; f2]
  ∧ files (handleRemoveFile f2 (withFiles [f1; f2])) = [f1]
  ∧ removeFirstSamePair f2 [f1; f2] = [f2]
  ∧ files (handleRemoveFile f2 (withFiles [f1; f2])) ≠ removeFirstSamePair f2 [f1; f2]
  ∧ somePair (files (withFiles [f1])) f2
  ∧ length (files (handleRemoveFile f2 (withFiles [f1]))) = length (files (withFiles [f1])).
Proof.
  repeat split; try (vm_compute; reflexivity).
  - vm_compute. discriminate.
  - apply Exists_cons_hd. by split.
Qed.

(** C9: [handleFilesAdded] appends to the set exactly the candidates
    whose (name, size) pair no entry of the set has, in the order in
    which they arrive; the entries already in the set keep their
    positions; and a single candidate whose pair is in the set leaves the
    set as it is, so its length does not grow. *)
Theorem handleFilesAdded_appends_unseen (newFiles : list File) (s : AppState) :
  files (handleFilesAdded newFiles s)
    = files s ++ filter (λ c, ¬ somePair (files s) c) newFiles
  ∧ filter (λ c, ¬ somePair (files s) c) newFiles `sublist_of` newFiles
  ∧ take (length (files s)) (files (handleFilesAdded newFiles s)) = files s
  ∧ (∀ i e, files s !! i = Some e →
            files (handleFilesAdded newFiles s) !! i = Some e)
  ∧ (∀ f, files (handleFilesAdded [f] s)
          = if decide (somePair (files s) f) then files s else files s ++ [f]).
Proof.
  destruct s as [n fs p u o b r c].
  unfold handleFilesAdded, setFiles, filesAdded; cbn [files].
  split; [done|]. split; [apply sublist_filter|]. split; [|split].
  - by rewrite take_app_length.
  - intros i e Hi. by apply lookup_app_l_Some.
  - intros f. rewrite filter_cons, filter_nil.
    destruct (decide (somePair fs f)) as [Hin|Hnin].
    + rewrite decide_False by tauto. apply app_nil_r.
    + by rewrite decide_True.
Qed.

Lemma handleFilesAdded_appends_unseen_witness :
  files (handleFilesAdded [f2; f3] (withFiles [f1])) = [f1; f3]
  ∧ files (handleFilesAdded [f2] (withFiles [f1])) = [f1].
Proof.
  split.
  - rewrite (proj1 (handleFilesAdded_appends_unseen [f2; f3] (withFiles [f1]))).
    reflexivity.
  - rewrite (proj2 (proj2 (proj2 (proj2
               (handleFilesAdded_appends_unseen [] (withFiles [f1]))))) f2).
    reflexivity.
Defined.

(** C10: within one batch nothing is compared: two candidates with the
    same (name, size) pair, a pair no entry of the set has, are both
    appended, and the set then holds two entries with that pair. *)
Theorem handleFilesAdded_batch_duplicates (a b : File) (s : AppState) :
  samePair a b → ¬ somePair (files s) a →
  files (handleFilesAdded [a; b] s) = files s ++ [a; b].
Proof.
  intros [Hn Hs] Hnin.
  destruct s as [n fs p u o q r c].
  unfold handleFilesAdded, setFiles, filesAdded; cbn [files] in *.
  assert (Hb : ¬ somePair fs b).
  { intros Hb. apply Hnin. unfold somePair in *.
    eapply Exists_impl; [exact Hb|]. unfold samePair. intros x [? ?].
    split; congruence. }
  by rewrite !filter_cons_True, filter_nil.
Qed.

Lemma handleFilesAdded_batch_duplicates_witness :
  samePair f1 f2 ∧ f1 ≠ f2
  ∧ files (handleFilesAdded [f1; f2] (withFiles [f3])) = [f3; f1; f2].
Proof.
  assert (Hp : samePair f1 f2) by (split; reflexivity).
  assert (Hn : ¬ somePair (files (withFiles [f3])) f1).
  { cbn. intros H. apply Exists_cons in H as [[H _]|H]; [discriminate H|].
    by apply Exists_nil in H. }
  split; [exact Hp|]. split; [discriminate|].
  exact (handleFilesAdded_batch_duplicates f1 f2 (withFiles [f3]) Hp Hn).
Defined.

(** ** Merge *)

Lemma copyPages_seq (pre doc : PDFDocument) :
  copyPages (pre ++ doc) (seq (length pre) (length doc)) = doc.
Proof.
  revert pre. induction doc as [|p doc IH]; intros pre; [done|].
  unfold copyPages in *. cbn [length seq]. simpl omap.
  rewrite list_lookup_middle by done. f_equal.
  specialize (IH (pre ++ [p])).
  rewrite length_app, Nat.add_1_r in IH.
  replace (pre ++ p :: doc) with ((pre ++ [p]) ++ doc); [exact IH|].
  by rewrite <- (assoc (++)).
Qed.

Lemma copyPages_all (doc : PDFDocument) :
  copyPages doc (getPageIndices doc) = doc.
Proof. exact (copyPages_seq [] doc). Qed.

Lemma addPage_each (pages target : PDFDocument) :
  foldl addPage target pages = target ++ pages.
Proof.
  revert target. induction pages as [|p pages IH]; intros target; cbn.
  - by rewrite app_nil_r.
  - rewrite IH. unfold addPage. by rewrite <- (assoc (++)).
Qed.

Lemma mergeInto_app (mergedPdf pdfToMerge : PDFDocument) :
  mergeInto mergedPdf pdfToMerge = mergedPdf ++ pdfToMerge.
Proof. unfold mergeInto. by rewrite copyPages_all, addPage_each. Qed.

Lemma concat_length_sum (docs : list PDFDocument) :
  length (concat docs) = sum_list (length <$> docs).
Proof.
  induction docs as [|d docs IH]; [done|].
  cbn. rewrite length_app, IH. done.
Qed.

(** A loop whose signal stays clear takes one document per file and then
    waits for [save] with the pages of all of them, in order. *)
Lemma compileRun_loaded (signal : nat) (s : AppState) :
  aborted signal s = false →
  ∀ (docs : list PDFDocument) (rest : list File) (mergedPdf : PDFDocument)
    (tail : list CompileSettled),
    length docs = length rest →
    compileRun (((λ d, FileSettled (Loaded d)) <$> docs) ++ tail)
               (loopHead signal rest mergedPdf s)
    = compileRun tail (s, Some (AwaitSave signal (mergedPdf ++ concat docs))).
Proof.
  intros Hs. induction docs as [|d docs IH]; intros [|f rest] mergedPdf tail Hlen;
    try discriminate Hlen.
  - cbn. by rewrite app_nil_r.
  - cbn [loopHead]. rewrite Hs. cbn [fmap list_fmap app compileRun compileResume].
    rewrite IH by (by injection Hlen). rewrite mergeInto_app.
    cbn [concat]. by rewrite (assoc (++)).
Qed.

(** A loop whose signal stays clear and that still has a file to read
    after the documents taken so far is waiting for that file. *)
Lemma compileRun_loaded_more (signal : nat) (s : AppState) :
  aborted signal s = false →
  ∀ (docs : list PDFDocument) (rest : list File) (mergedPdf : PDFDocument)
    (tail : list CompileSettled),
    length docs < length rest →
    ∃ file rest',
      compileRun (((λ d, FileSettled (Loaded d)) <$> docs) ++ tail)
                 (loopHead signal rest mergedPdf s)
      = compileRun tail
          (s, Some (AwaitFile signal file rest' (mergedPdf ++ concat docs))).
Proof.
  intros Hs. induction docs as [|d docs IH]; intros [|f rest] mergedPdf tail Hlen;
    cbn [length] in Hlen; try lia.
  - exists f, rest. cbn [loopHead]. rewrite Hs. cbn. by rewrite app_nil_r.
  - cbn [loopHead]. rewrite Hs. cbn [fmap list_fmap app compileRun compileResume].
    destruct (IH rest (mergeInto mergedPdf d) tail) as (file & rest' & ->); [lia|].
    exists file, rest'. rewrite mergeInto_app. cbn [concat].
    by rewrite (assoc (++)).
Qed.

Lemma aborted_setUploadStatus (signal : nat) (u : UploadStatus) (s : AppState) :
  aborted signal (setUploadStatus u s) = aborted signal s.
Proof. reflexivity. Qed.

Lemma aborted_fresh (s : AppState) (u : UploadStatus) (p : bool) :
  aborted (length (controllers s))
          (setUploadStatus u (setIsProcessing p (newAbortController s))) = false.
Proof.
  unfold aborted; cbn. by rewrite list_lookup_middle.
Qed.

Lemma handleCompileAndReview_starts (s : AppState) :
  isSubmitDisabled s = false →
  handleCompileAndReview s
  = (setUploadStatus noStatus (setIsProcessing true (newAbortController s)),
     Some (AwaitCreate (length (controllers s)) (files s))).
Proof. intros H. unfold handleCompileAndReview. by rewrite H. Qed.

Lemma save_pages (doc : PDFDocument) :
  doc ≠ [] → save doc = doc.
Proof. by destruct doc. Qed.

(** C4 (as amended): a compile that runs to its end over well-formed
    inputs stores what [save] makes of the concatenation of the inputs.
    When the inputs have at least one page in total, that is the
    concatenation itself: the pages of the first input in their order,
    then those of the second, and so on, nothing moved, dropped or
    merged away, and the page count is the sum of the inputs' page
    counts.  When the inputs have no page at all, it is one blank page. *)
Theorem compile_merges_in_order (s : AppState) (docs : list PDFDocument) :
  isSubmitDisabled s = false →
  length docs = length (files s) →
  compileRun (Created :: ((λ d, FileSettled (Loaded d)) <$> docs) ++ [Saved])
             (handleCompileAndReview s)
  = (mkApp (sessionName s) (files s) false noStatus true
           (Some (mkBlob (save (concat docs)) "application/pdf"))
           (Some (length (controllers s))) (controllers s ++ [false]),
     None)
  ∧ (concat docs ≠ [] →
     save (concat docs) = concat docs
     ∧ length (save (concat docs)) = sum_list (length <$> docs))
  ∧ (concat docs = [] → save (concat docs) = [blankPage]).
Proof.
  intros Hguard Hlen. split; [|split].
  - rewrite handleCompileAndReview_starts by done.
    cbn [compileRun compileResume].
    rewrite compileRun_loaded by (done || apply aborted_fresh).
    cbn [compileRun compileResume]. unfold compileFinish, finallyBlock.
    replace (aborted _ _) with false; [done|].
    symmetry. unfold aborted; cbn. by rewrite list_lookup_middle.
  - intros Hne. rewrite save_pages by done. split; [done|]. apply concat_length_sum.
  - by intros ->.
Qed.

Lemma compile_merges_in_order_witness :
  compiledPdfBlob
    (compileRun
       [Created;
        FileSettled (Loaded ["doc1.p1"; "doc1.p2"]);
        FileSettled (Loaded ["doc2.p1"; "doc2.p2"; "doc2.p3"]);
        FileSettled (Loaded ["doc3.p1"]);
        Saved]
       (handleCompileAndReview (withFiles [f1; f3; mkFile 4 "appendix.pdf" 99]))).1
  = Some (mkBlob ["doc1.p1"; "doc1.p2"; "doc2.p1"; "doc2.p2"; "doc2.p3"; "doc3.p1"]
                 "application/pdf")
  ∧ length (save (concat [["doc1.p1"; "doc1.p2"]; ["doc2.p1"; "doc2.p2"; "doc2.p3"];
                          ["doc3.p1"]])) = 6.
Proof.
  pose proof (compile_merges_in_order
                (withFiles [f1; f3; mkFile 4 "appendix.pdf" 99])
                [["doc1.p1"; "doc1.p2"]; ["doc2.p1"; "doc2.p2"; "doc2.p3"]; ["doc3.p1"]]
                eq_refl eq_refl) as (Hrun & Hpages & _).
  split.
  - cbn [fmap list_fmap app] in Hrun. rewrite Hrun. reflexivity.
  - exact (eq_trans (proj2 (Hpages ltac:(discriminate))) eq_refl).
Defined.

(** C4 as the specification words it does not hold for inputs without
    pages: one well-formed document that has no page is merged, the
    document to save has no page, and the artifact stored holds one
    page, which is neither the concatenation of the inputs nor as many
    pages as the inputs have. *)
Lemma compile_pageless_input_gets_blank_page :
  compiledPdfBlob
    (compileRun [Created; FileSettled (Loaded []); Saved]
                (handleCompileAndReview (withFiles [f1]))).1
  = Some (mkBlob [blankPage] "application/pdf")
  ∧ [blankPage] ≠ concat [([] : PDFDocument)]
  ∧ length [blankPage] ≠ sum_list (length <$> [([] : PDFDocument)]).
Proof. split; [reflexivity|]. split; discriminate. Qed.

(** ** Compile: guard and failure *)

(** C7: when the guard of compile is not met (no session name, no file,
    or an operation in progress) the handler returns at once: the state
    is the same in every component (no notice, no new controller, the
    flags as they were) and no task is left behind. *)
Theorem compile_guard_silent (s : AppState) :
  sessionName s = "" ∨ files s = [] ∨ isProcessing s = true →
  handleCompileAndReview s = (s, None).
Proof.
  intros H. unfold handleCompileAndReview, isSubmitDisabled.
  destruct H as [-> | [-> | ->]]; cbn.
  - done.
  - by rewrite orb_true_r.
  - by rewrite orb_true_r.
Qed.

Lemma compile_guard_silent_witness :
  handleCompileAndReview
    (mkApp "" [f1] false noStatus false None None [])
  = (mkApp "" [f1] false noStatus false None None [], None).
Proof.
  apply (compile_guard_silent (mkApp "" [f1] false noStatus false None None [])).
  left. reflexivity.
Defined.

Lemma compileRun_failure (s : AppState) (docs : list PDFDocument)
    (o : FileOutcome) (e : Thrown) (m : string) :
  isSubmitDisabled s = false →
  length docs < length (files s) →
  (∀ signal file rest mergedPdf s',
     compileResume (AwaitFile signal file rest mergedPdf) (FileSettled o) s'
     = (finallyBlock signal (compileCatch e s'), None)) →
  (∀ s', compileCatch e s' = setUploadStatus (mkStatus (Some error) m) s') →
  compileRun (Created :: ((λ d, FileSettled (Loaded d)) <$> docs)
                ++ [FileSettled o])
             (handleCompileAndReview s)
  = (mkApp (sessionName s) (files s) false (mkStatus (Some error) m)
           (isPreviewOpen s) (compiledPdfBlob s)
           (Some (length (controllers s))) (controllers s ++ [false]),
     None).
Proof.
  intros Hguard Hlen Hres Hcatch.
  rewrite handleCompileAndReview_starts by done.
  cbn [compileRun compileResume].
  edestruct compileRun_loaded_more as (file & rest' & ->);
    [apply aborted_fresh | exact Hlen |].
  cbn [compileRun]. rewrite Hres, Hcatch. unfold finallyBlock.
  replace (aborted _ _) with false; [done|].
  symmetry. unfold aborted; cbn. by rewrite list_lookup_middle.
Qed.

(** Whatever has happened since the compile began, the completion of a
    failed read or parse writes the notice, clears the processing flag
    unless its own signal is aborted, and touches nothing else. *)
Lemma compileResume_failure_frame (signal : nat) (file : File) (rest : list File)
    (mergedPdf : PDFDocument) (o : FileOutcome) (s : AppState) :
  (∀ d, o ≠ Loaded d) →
  ∃ m,
    compileResume (AwaitFile signal file rest mergedPdf) (FileSettled o) s
    = (mkApp (sessionName s) (files s)
             (if aborted signal s then isProcessing s else false)
             (mkStatus (Some error) m)
             (isPreviewOpen s) (compiledPdfBlob s)
             (abortControllerRef s) (controllers s),
       None).
Proof.
  intros Hbad. destruct o as [|m|d]; [| |by destruct (Hbad d)].
  - eexists. cbn [compileResume]. unfold compileCatch, finallyBlock.
    cbn [isAbortError errorMessage]. rewrite aborted_setUploadStatus.
    by destruct (aborted signal s).
  - eexists. cbn [compileResume]. unfold compileCatch, finallyBlock.
    cbn [isAbortError errorMessage]. rewrite aborted_setUploadStatus.
    by destruct (aborted signal s).
Qed.

(** C6: a compile in which, after any number of files read and parsed,
    the next file cannot be read or its buffer cannot be parsed ends
    with the processing flag cleared and an error notice carrying the
    message of the handler; the file set and the session name are those
    the compile started with (and no artifact or preview is touched). *)
Theorem compile_failure_keeps_session (s : AppState) (docs : list PDFDocument) :
  isSubmitDisabled s = false →
  length docs < length (files s) →
  compileRun (Created :: ((λ d, FileSettled (Loaded d)) <$> docs)
                ++ [FileSettled ReadRejected])
             (handleCompileAndReview s)
  = (mkApp (sessionName s) (files s) false
           (mkStatus (Some error)
                     "An unknown error occurred during file processing.")
           (isPreviewOpen s) (compiledPdfBlob s)
           (Some (length (controllers s))) (controllers s ++ [false]),
     None)
  ∧ ∀ m,
      compileRun (Created :: ((λ d, FileSettled (Loaded d)) <$> docs)
                    ++ [FileSettled (LoadThrew m)])
                 (handleCompileAndReview s)
      = (mkApp (sessionName s) (files s) false
               (mkStatus (Some error) ("Failed to process files: " +:+ m))
               (isPreviewOpen s) (compiledPdfBlob s)
               (Some (length (controllers s))) (controllers s ++ [false]),
         None).
Proof.
  intros Hguard Hlen. split; [|intros m].
  - by apply (compileRun_failure s docs ReadRejected NotAnError).
  - by apply (compileRun_failure s docs (LoadThrew m) (Error m)).
Qed.

Lemma compile_failure_keeps_session_witness :
  compileRun [Created; FileSettled (Loaded ["doc1.p1"]);
              FileSettled (LoadThrew "No PDF header found")]
             (handleCompileAndReview (withFiles [f1; f3]))
  = (mkApp "Q3 Sales Review" [f1; f3] false
           (mkStatus (Some error) "Failed to process files: No PDF header found")
           false None (Some 0) [false],
     None).
Proof.
  exact (proj2 (compile_failure_keeps_session (withFiles [f1; f3]) [["doc1.p1"]]
                  eq_refl (le_n 2)) "No PDF header found").
Defined.

(** ** The controller heap

    Only the two asynchronous handlers allocate a controller (and point
    the ref at it) and only Reset aborts one; resuming a task neither
    allocates nor aborts. *)

Lemma handleReset_cells (s : AppState) :
  handleReset s
  = mkApp "" [] false noStatus false None
          (abortControllerRef s) (controllers (abortCurrent s)).
Proof.
  unfold handleReset, abortCurrent.
  destruct s as [n fs p u o b [c|] cs]; reflexivity.
Qed.

Lemma refValid_initialState : refValid initialState.
Proof. intros c Hc. discriminate Hc. Qed.

Lemma refValid_handleCompileAndReview (s : AppState) :
  refValid s → refValid (handleCompileAndReview s).1.
Proof.
  intros Hv. unfold handleCompileAndReview.
  destruct (isSubmitDisabled s); [exact Hv|].
  intros c Hc; cbn in *. injection Hc as <-. rewrite length_app; cbn. lia.
Qed.

Lemma refValid_handleFinalSubmit (s : AppState) :
  refValid s → refValid (handleFinalSubmit s).1.
Proof.
  intros Hv. unfold handleFinalSubmit.
  destruct (_ || _ || _); [exact Hv|].
  intros c Hc; cbn in *. injection Hc as <-. rewrite length_app; cbn. lia.
Qed.

Lemma refValid_handleReset (s : AppState) :
  refValid s → refValid (handleReset s).
Proof.
  intros Hv c Hc. rewrite handleReset_cells in *. cbn in *.
  unfold abortCurrent. destruct (abortControllerRef s) as [c'|] eqn:E; cbn.
  - rewrite length_insert. apply Hv. congruence.
  - discriminate Hc.
Qed.

Lemma compileResume_heap (task : CompileTask) (v : CompileSettled) (s : AppState) :
  abortControllerRef (compileResume task v s).1 = abortControllerRef s
  ∧ controllers (compileResume task v s).1 = controllers s.
Proof.
  assert (Hfin : ∀ signal s', abortControllerRef (finallyBlock signal s') = abortControllerRef s'
                              ∧ controllers (finallyBlock signal s') = controllers s').
  { intros signal s'. unfold finallyBlock. by destruct (aborted signal s'). }
  assert (Hcatch : ∀ e s', abortControllerRef (compileCatch e s') = abortControllerRef s'
                           ∧ controllers (compileCatch e s') = controllers s').
  { intros e s'. unfold compileCatch. by destruct (isAbortError e). }
  assert (Hhead : ∀ signal rest m,
             abortControllerRef (loopHead signal rest m s).1 = abortControllerRef s
             ∧ controllers (loopHead signal rest m s).1 = controllers s).
  { intros signal [|f rest] m; cbn; [done|].
    destruct (aborted signal s); cbn; [|done].
    destruct (Hfin signal (compileCatch (DOMException "Aborted by user" "AbortError") s))
      as [-> ->]. apply Hcatch. }
  destruct task as [signal fs|signal f rest m|signal m], v as [|[|msg|pdf]|];
    cbn [compileResume fst]; try done; try apply Hhead.
  - destruct (Hfin signal (compileCatch NotAnError s)) as [-> ->]. apply Hcatch.
  - destruct (Hfin signal (compileCatch (Error msg) s)) as [-> ->]. apply Hcatch.
  - unfold compileFinish.
    by destruct (Hfin signal
                   (setIsPreviewOpen true
                      (setCompiledPdfBlob (Some (mkBlob (save m) "application/pdf")) s)))
      as [-> ->].
Qed.

(** ** A whole session *)

Example session_happy_path :
  (compileRun [Created; FileSettled (Loaded ["p1"]); Saved]
     (handleCompileAndReview (withFiles [f1])))
  = (mkApp "Q3 Sales Review" [f1] false noStatus true
           (Some (mkBlob ["p1"] "application/pdf")) (Some 0) [false], None)
  ∧ handleFinalSubmit
      (mkApp "Q3 Sales Review" [f1] false noStatus true
             (Some (mkBlob ["p1"] "application/pdf")) (Some 0) [false])
    = (mkApp "Q3 Sales Review" [f1] true noStatus true
             (Some (mkBlob ["p1"] "application/pdf")) (Some 1) [false; false],
       Some (AwaitFetch 1))
  ∧ submitResume (AwaitFetch 1) (FetchSettled (Responded (mkResponse 204 "No Content")))
      (mkApp "Q3 Sales Review" [f1] true noStatus true
             (Some (mkBlob ["p1"] "application/pdf")) (Some 1) [false; false])
    = (mkApp "" [] false
             (mkStatus (Some success) "Upload successful! Your merged PDF was sent.")
             false None (Some 1) [false; false], None).
Proof. repeat split. Qed.

Example submit_non_ok :
  submitResume (AwaitText 0 (mkResponse 500 "Internal Server Error"))
    (TextSettled "boom")
    (submitResume (AwaitFetch 0)
       (FetchSettled (Responded (mkResponse 500 "Internal Server Error")))
       (handleFinalSubmit previewing).1).1
  = (mkApp "Q3 Sales Review" [f1] false
           (mkStatus (Some error) "Upload failed: 500 Internal Server Error. boom")
           true (Some (mkBlob ["p1"] "application/pdf")) (Some 0) [false],
     None).
Proof. vm_compute. reflexivity. Qed.

Example compile_cancelled_at_check :
  compileResume (AwaitFile 0 f1 [f3] []) (FileSettled (Loaded ["p1"]))
    (handleReset (compileRun [Created] (handleCompileAndReview (withFiles [f1; f3]))).1)
  = (mkApp "" [] false noStatus false None (Some 0) [true], None).
Proof. vm_compute. reflexivity. Qed.

(** ** Cancellation *)




(** A submit whose signal is aborted writes the cancellation notice and
    nothing else, whatever the network did. *)
Lemma submitResume_aborted (signal : nat) (net : FetchOutcome) (s : AppState) :
  aborted signal s = true →
  submitResume (AwaitFetch signal) (FetchSettled net) s
  = (setUploadStatus (mkStatus (Some error) "Submission cancelled.") s, None).
Proof.
  intros Ha. unfold submitResume, fetch. rewrite Ha.
  unfold submitCatch. cbn [isAbortError]. rewrite bool_decide_eq_true_2 by done.
  unfold finallyBlock. by rewrite aborted_setUploadStatus, Ha.
Qed.


(** ** Submit *)

(** C5: a submit whose call is answered with a 2xx response clears the
    session name, empties the file set, drops the artifact and closes
    the preview, shows a success notice and clears the processing flag. *)
Theorem submit_success_clears (signal : nat) (net : FetchOutcome)
    (response : Response) (s : AppState) :
  fetch signal net s = Responded response →
  ok response = true →
  submitResume (AwaitFetch signal) (FetchSettled net) s
  = (mkApp "" [] false
           (mkStatus (Some success) "Upload successful! Your merged PDF was sent.")
           false None (abortControllerRef s) (controllers s),
     None).
Proof.
  intros Hf Hok. unfold submitResume. rewrite Hf, Hok.
  unfold fetch in Hf. destruct (aborted signal s) eqn:Ha; [discriminate Hf|].
  unfold finallyBlock, submitSucceeded.
  replace (aborted signal _) with false; done.
Qed.

Lemma submit_success_clears_witness :
  handleFinalSubmit previewing
  = (mkApp "Q3 Sales Review" [f1] true noStatus true
           (Some (mkBlob ["p1"] "application/pdf")) (Some 0) [false],
     Some (AwaitFetch 0))
  ∧ submitResume (AwaitFetch 0) (FetchSettled (Responded (mkResponse 200 "OK")))
      (handleFinalSubmit previewing).1
    = (mkApp "" [] false
             (mkStatus (Some success) "Upload successful! Your merged PDF was sent.")
             false None (Some 0) [false],
       None).
Proof.
  split; [reflexivity|].
  exact (submit_success_clears 0 (Responded (mkResponse 200 "OK"))
           (mkResponse 200 "OK") (handleFinalSubmit previewing).1
           eq_refl eq_refl).
Defined.

(** C2 (as amended): a submit that is cancelled through its token ends
    with the notice {error, "Submission cancelled."}; a call that the
    network rejects while the token is clear ends with an error notice
    that carries the message of the rejection itself (or "An unknown
    error occurred." when what was thrown is not an [Error]), which is
    the cancellation message only when the rejection is an [AbortError]. *)
Theorem submit_interrupted_notice (signal : nat) (net : FetchOutcome)
    (s : AppState) :
  (aborted signal s = true →
   submitResume (AwaitFetch signal) (FetchSettled net) s
   = (setUploadStatus (mkStatus (Some error) "Submission cancelled.") s, None))
  ∧ (∀ e, aborted signal s = false → net = Rejected e →
       submitResume (AwaitFetch signal) (FetchSettled net) s
       = (setIsProcessing false
            (setUploadStatus
               (mkStatus (Some error)
                  (if isAbortError e then "Submission cancelled."
                   else default "An unknown error occurred." (errorMessage e)))
               s),
          None)).
Proof.
  split.
  - apply submitResume_aborted.
  - intros e Ha ->. unfold submitResume, fetch. rewrite Ha.
    unfold finallyBlock, submitCatch.
    destruct (isAbortError e), (errorMessage e); cbn [default];
      by rewrite aborted_setUploadStatus, Ha.
Qed.

Lemma submit_interrupted_notice_witness :
  uploadStatus
    (submitResume (AwaitFetch 0) (FetchSettled (Responded (mkResponse 200 "OK")))
       (handleReset (handleFinalSubmit previewing).1)).1
  = mkStatus (Some error) "Submission cancelled."
  ∧ uploadStatus
      (submitResume (AwaitFetch 0) (FetchSettled (Rejected NotAnError))
         (handleFinalSubmit previewing).1).1
    = mkStatus (Some error) "An unknown error occurred.".
Proof.
  split.
  - rewrite (proj1 (submit_interrupted_notice 0 (Responded (mkResponse 200 "OK"))
                      (handleReset (handleFinalSubmit previewing).1)) eq_refl).
    reflexivity.
  - rewrite (proj2 (submit_interrupted_notice 0 (Rejected NotAnError)
                      (handleFinalSubmit previewing).1) NotAnError eq_refl eq_refl).
    reflexivity.
Defined.

(** C2 as the specification words it does not hold for a call that the
    network rejects: the transport failure of [fetch] is a [TypeError],
    and the notice then carries its message, not the cancellation text. *)
Lemma submit_network_rejection_not_cancelled :
  aborted 0 (handleFinalSubmit previewing).1 = false
  ∧ uploadStatus
      (submitResume (AwaitFetch 0) (FetchSettled (Rejected (Error "Failed to fetch")))
         (handleFinalSubmit previewing).1).1
    = mkStatus (Some error) "Failed to fetch"
  ∧ uploadStatus
      (submitResume (AwaitFetch 0) (FetchSettled (Rejected (Error "Failed to fetch")))
         (handleFinalSubmit previewing).1).1
    ≠ mkStatus (Some error) "Submission cancelled.".
Proof. repeat split. vm_compute. discriminate. Qed.

(** ** Reset *)





(** The last file of a compile: once its read has started no check of
    the signal is left, so the artifact is stored and the preview opened
    also when the signal has been aborted in the meantime. *)
Lemma last_file_completes_when_aborted (signal : nat) (file : File)
    (mergedPdf pdfToMerge : PDFDocument) (s : AppState) :
  aborted signal s = true →
  compileRun [FileSettled (Loaded pdfToMerge); Saved]
             (s, Some (AwaitFile signal file [] mergedPdf))
  = (setIsPreviewOpen true
       (setCompiledPdfBlob
          (Some (mkBlob (save (mergedPdf ++ pdfToMerge)) "application/pdf")) s),
     None).
Proof.
  intros Ha. cbn [compileRun compileResume loopHead].
  rewrite mergeInto_app. unfold compileFinish, finallyBlock.
  replace (aborted signal _) with true; done.
Qed.

(** C3 at the failing input: one file in the set; the compile has passed
    the check of the loop and is reading that file when Reset signals
    its token.  The read and the parse then succeed, no check follows,
    and the handler stores the artifact and opens the preview over the
    state Reset has just cleared, instead of ending as cancelled. *)
Theorem compile_reset_during_last_read :
  compileRun [Created] (handleCompileAndReview (withFiles [f1]))
  = (mkApp "Q3 Sales Review" [f1] true noStatus false None (Some 0) [false],
     Some (AwaitFile 0 f1 [] []))
  ∧ aborted 0
      (handleReset
         (mkApp "Q3 Sales Review" [f1] true noStatus false None (Some 0) [false]))
    = true
  ∧ compileRun [FileSettled (Loaded ["p1"]); Saved]
      (handleReset
         (mkApp "Q3 Sales Review" [f1] true noStatus false None (Some 0) [false]),
       Some (AwaitFile 0 f1 [] []))
    = (mkApp "" [] false noStatus true (Some (mkBlob ["p1"] "application/pdf"))
             (Some 0) [true],
       None).
Proof. repeat split. Qed.

(** * Further properties *)

(** ** File set: how add and remove compose *)

Lemma somePair_pairOf (l : list File) (c : File) :
  somePair l c ↔ pairOf c ∈ pairOf <$> l.
Proof.
  unfold somePair. rewrite Exists_exists, list_elem_of_fmap. unfold samePair, pairOf.
  split.
  - intros (x & Hx & Hn & Hs). exists x. split; [|done]. by rewrite Hn, Hs.
  - intros (x & Heq & Hx). exists x. split; [done|]. by injection Heq as -> ->.
Qed.

Lemma somePair_self (l : list File) (c : File) : c ∈ l → somePair l c.
Proof. intros Hc. apply Exists_exists. exists c. by split. Qed.

Lemma filter_none {A} (P : A → Prop) `{∀ x, Decision (P x)} (l : list A) :
  (∀ x, x ∈ l → ¬ P x) → filter P l = [].
Proof.
  induction l as [|x l IH]; intros Hall; [done|].
  rewrite filter_cons_False by (apply Hall; left).
  apply IH. intros y Hy. apply Hall. by right.
Qed.

(** X1: adding the same batch a second time changes nothing: after the
    first add every candidate's (name, size) pair is in the set. *)
Theorem handleFilesAdded_twice (newFiles : list File) (s : AppState) :
  handleFilesAdded newFiles (handleFilesAdded newFiles s)
  = handleFilesAdded newFiles s.
Proof.
  destruct s as [n fs p u o b r c].
  unfold handleFilesAdded, setFiles, filesAdded; cbn [files]. f_equal.
  set (added := filter (λ newFile, ¬ somePair fs newFile) newFiles).
  rewrite (filter_none (λ newFile, ¬ somePair (fs ++ added) newFile));
    [apply app_nil_r|].
  intros x Hx Hnot. apply Hnot.
  destruct (decide (somePair fs x)) as [Hin|Hnin].
  - unfold somePair in *. apply Exists_app. by left.
  - apply somePair_self. apply elem_of_app. right.
    by apply list_elem_of_filter.
Qed.

(** X2: when no two entries of the set share a (name, size) pair and no
    two candidates of the batch do, no two entries share a pair after
    the add. *)
Theorem handleFilesAdded_keeps_pairs_distinct (newFiles : list File) (s : AppState) :
  NoDup (pairOf <$> files s) →
  NoDup (pairOf <$> newFiles) →
  NoDup (pairOf <$> files (handleFilesAdded newFiles s)).
Proof.
  intros Hs Hn. destruct s as [n fs p u o b r c].
  unfold handleFilesAdded, setFiles, filesAdded; cbn [files] in *.
  rewrite fmap_app. apply NoDup_app. split; [done|]. split.
  - intros x Hx Hx'. apply list_elem_of_fmap in Hx' as (f & -> & Hf).
    apply list_elem_of_filter in Hf as [Hnot _]. apply Hnot.
    by apply somePair_pairOf.
  - eapply sublist_NoDup; [exact Hn|]. apply fmap_sublist, sublist_filter.
Qed.

Lemma handleFilesAdded_keeps_pairs_distinct_witness :
  NoDup (pairOf <$> files (handleFilesAdded [f2; f3] (withFiles [f1]))).
Proof.
  apply (handleFilesAdded_keeps_pairs_distinct [f2; f3] (withFiles [f1])).
  - cbn. apply NoDup_singleton.
  - cbn. apply NoDup_cons. split; [|apply NoDup_singleton].
    intros H. apply list_elem_of_singleton in H. discriminate H.
Defined.

(** X3: a file whose (name, size) pair no entry has is appended by add
    and taken out again by remove: the set is the one before. *)
Theorem handleFilesAdded_then_remove (f : File) (s : AppState) :
  ¬ somePair (files s) f →
  handleRemoveFile f (handleFilesAdded [f] s) = s.
Proof.
  intros Hnot. destruct s as [n fs p u o b r c].
  unfold handleRemoveFile, handleFilesAdded, setFiles, filesAdded;
    cbn [files] in *. f_equal.
  rewrite filter_cons_True, filter_nil by done.
  assert (Hf : f ∉ fs) by (intros Hf; by apply Hnot, somePair_self).
  rewrite <- (app_nil_r fs) at 2.
  exact (removeFile_once f fs [] Hf (not_elem_of_nil f)).
Qed.

Lemma handleFilesAdded_then_remove_witness :
  handleRemoveFile f3 (handleFilesAdded [f3] (withFiles [f1])) = withFiles [f1].
Proof.
  apply (handleFilesAdded_then_remove f3 (withFiles [f1])).
  cbn. intros H. apply Exists_cons in H as [[H _]|H]; [discriminate H|].
  by apply Exists_nil in H.
Defined.

(** ** The derived file name *)

Example compiledFileName_ex :
  compiledFileName "Q3  Sales Review" = "Q3_Sales_Review_compiled.pdf".
Proof. reflexivity. Qed.

Lemma append_cons (c : ascii) (a b : string) :
  String c a +:+ b = String c (a +:+ b).
Proof. reflexivity. Qed.

Lemma append_nil (b : string) : "" +:+ b = b.
Proof. reflexivity. Qed.

Lemma append_nil_r (a : string) : a +:+ "" = a.
Proof. induction a as [|c a IH]; [done|]. by rewrite append_cons, IH. Qed.

Lemma noWhitespace_append (a b : string) :
  noWhitespace (a +:+ b) = noWhitespace a && noWhitespace b.
Proof.
  induction a as [|c a IH]; [done|].
  rewrite append_cons. cbn [noWhitespace]. rewrite IH. by rewrite andb_assoc.
Qed.

Lemma replaceRuns_noWhitespace (inRun : bool) (str : string) :
  noWhitespace (replaceRuns inRun str) = true.
Proof.
  revert inRun. induction str as [|c str IH]; intros inRun; [done|].
  cbn [replaceRuns]. destruct (isWhitespace c) eqn:Hc.
  - destruct inRun; [apply IH|]. cbn [noWhitespace]. by rewrite IH.
  - cbn [noWhitespace]. by rewrite Hc, IH.
Qed.

Lemma replaceRuns_length (inRun : bool) (str : string) :
  (String.length (replaceRuns inRun str) ≤ String.length str)%nat.
Proof.
  revert inRun. induction str as [|c str IH]; intros inRun; [done|].
  cbn [replaceRuns]. pose proof (IH true). pose proof (IH false).
  destruct (isWhitespace c), inRun; cbn [String.length]; lia.
Qed.

Lemma replaceRuns_word (inRun : bool) (word rest : string) :
  noWhitespace word = true →
  replaceRuns inRun (word +:+ rest)
  = word +:+ replaceRuns (if word is EmptyString then inRun else false) rest.
Proof.
  revert inRun. induction word as [|c word IH]; intros inRun Hw; [done|].
  cbn [noWhitespace] in Hw. apply andb_true_iff in Hw as [Hc Hw].
  apply negb_true_iff in Hc. rewrite !append_cons. cbn [replaceRuns].
  rewrite Hc. f_equal. rewrite IH by done. by destruct word.
Qed.

Lemma replaceRuns_run (run rest : string) :
  onlyWhitespace run = true →
  startsWithWhitespace rest = false →
  replaceRuns true (run +:+ rest) = replaceRuns false rest.
Proof.
  intros Hrun Hrest. induction run as [|c run IH].
  - rewrite append_nil. destruct rest as [|d rest]; [done|].
    cbn in Hrest. cbn [replaceRuns]. by rewrite Hrest.
  - cbn [onlyWhitespace] in Hrun. apply andb_true_iff in Hrun as [Hc Hrun].
    rewrite append_cons. cbn [replaceRuns]. rewrite Hc. by apply IH.
Qed.

Lemma length_append (a b : string) :
  String.length (a +:+ b) = (String.length a + String.length b)%nat.
Proof.
  induction a as [|c a IH]; [done|].
  rewrite append_cons. cbn [String.length]. by rewrite IH.
Qed.

(** X4: the derived file name holds no whitespace, is at most 13 code
    units longer than the session name, and for a session name without
    whitespace it is that name followed by "_compiled.pdf". *)
Theorem compiledFileName_no_whitespace (sessionName : string) :
  noWhitespace (compiledFileName sessionName) = true
  ∧ (String.length (compiledFileName sessionName)
     ≤ String.length sessionName + 13)%nat
  ∧ (noWhitespace sessionName = true →
     compiledFileName sessionName = sessionName +:+ "_compiled.pdf").
Proof.
  unfold compiledFileName. split; [|split].
  - by rewrite noWhitespace_append, replaceRuns_noWhitespace.
  - rewrite length_append. pose proof (replaceRuns_length false sessionName).
    cbn [String.length]. lia.
  - intros Hn. f_equal.
    pose proof (replaceRuns_word false sessionName "" Hn) as H.
    rewrite append_nil_r in H. rewrite H.
    destruct sessionName; cbn [replaceRuns]; apply append_nil_r.
Qed.

Lemma compiledFileName_no_whitespace_witness :
  compiledFileName "Review-2024" = "Review-2024_compiled.pdf".
Proof.
  exact (proj2 (proj2 (compiledFileName_no_whitespace "Review-2024")) eq_refl).
Defined.

(** X5: for session names over the code units 0-255: a word (no
    whitespace) followed by a run of one or more whitespace code units,
    with no whitespace right after the run, comes out as the word, one
    underscore, and the rest treated the same way; so each maximal run
    gives exactly one underscore and everything else is kept. *)
Theorem replaceRuns_collapses_run (word run rest : string) :
  noWhitespace word = true →
  onlyWhitespace run = true →
  run ≠ "" →
  startsWithWhitespace rest = false →
  replaceRuns false (word +:+ run +:+ rest)
  = word +:+ "_" +:+ replaceRuns false rest.
Proof.
  intros Hw Hrun Hne Hrest.
  rewrite replaceRuns_word by done. f_equal.
  destruct run as [|c run]; [done|].
  cbn in Hrun. apply andb_true_iff in Hrun as [Hc Hrun].
  assert (Hgo : ∀ inRun, replaceRuns inRun (String c run +:+ rest)
                = (if inRun then "" else "_") +:+ replaceRuns false rest).
  { intros inRun. rewrite append_cons. cbn [replaceRuns]. rewrite Hc.
    rewrite (replaceRuns_run run rest) by done. by destruct inRun. }
  destruct word; rewrite Hgo; done.
Qed.

Lemma replaceRuns_collapses_run_witness :
  replaceRuns false ("Q3" +:+ "  " +:+ "Sales")
  = "Q3" +:+ "_" +:+ replaceRuns false "Sales".
Proof.
  apply (replaceRuns_collapses_run "Q3" "  " "Sales"); [reflexivity..| |reflexivity].
  discriminate.
Defined.

(** ** Submit: guard, request and rejected response *)

(** X6: without an artifact, without a session name or while an
    operation is in progress, the final submit returns at once: the
    state is unchanged in every component, no controller is allocated,
    no request is built and no task is left behind. *)
Theorem submit_guard_silent (s : AppState) :
  compiledPdfBlob s = None ∨ sessionName s = "" ∨ isProcessing s = true →
  handleFinalSubmit s = (s, None) ∧ formData s = None.
Proof.
  intros H. unfold handleFinalSubmit, formData.
  destruct H as [-> | [-> | ->]]; cbn.
  - done.
  - rewrite orb_true_r. cbn. by destruct (compiledPdfBlob s).
  - rewrite !orb_true_r. by destruct (compiledPdfBlob s).
Qed.

Lemma submit_guard_silent_witness :
  handleFinalSubmit (withFiles [f1]) = (withFiles [f1], None).
Proof.
  apply (submit_guard_silent (withFiles [f1])). left. reflexivity.
Defined.

(** X7: for session names over the code units 0-255: a request is
    built exactly when the final submit starts an operation; it carries
    the session name unchanged, the artifact of the state as the file,
    and as file name the derived name, which holds no whitespace. *)
Theorem formData_of_started_submit (s : AppState) :
  (is_Some (formData s) ↔ is_Some (handleFinalSubmit s).2)
  ∧ ∀ fd, formData s = Some fd →
      fieldSessionName fd = sessionName s
      ∧ compiledPdfBlob s = Some (fileParts (fieldFile fd))
      ∧ fileType (fieldFile fd) = "application/pdf"
      ∧ fieldFileName fd = compiledFileName (sessionName s)
      ∧ fileName (fieldFile fd) = fieldFileName fd
      ∧ noWhitespace (fieldFileName fd) = true.
Proof.
  unfold formData, handleFinalSubmit. split.
  - destruct (compiledPdfBlob s) as [b|]; cbn.
    + destruct (bool_decide (sessionName s = "") || isProcessing s); cbn;
        split; intros [x Hx]; by (discriminate Hx || eexists).
    + split; intros [x Hx]; discriminate Hx.
  - intros fd. destruct (compiledPdfBlob s) as [b|]; [|discriminate].
    destruct (bool_decide (sessionName s = "") || isProcessing s); [discriminate|].
    intros [= <-]. cbn. repeat split.
    apply compiledFileName_no_whitespace.
Qed.

Lemma formData_of_started_submit_witness :
  formData previewing
  = Some (mkFormData "Q3 Sales Review"
            (mkCompiledFile (mkBlob ["p1"] "application/pdf")
                            "Q3_Sales_Review_compiled.pdf" "application/pdf")
            "Q3_Sales_Review_compiled.pdf")
  ∧ noWhitespace "Q3_Sales_Review_compiled.pdf" = true.
Proof.
  split; [reflexivity|].
  exact (proj2 (proj2 (proj2 (proj2 (proj2
           (proj2 (formData_of_started_submit previewing) _ eq_refl)))))).
Defined.

(** X8: a response outside 200-299, received while the token is clear,
    makes the submit read the body.  When the body is read the submit
    ends with the notice "Upload failed: <status> <statusText>. <body>";
    when reading the body is rejected it ends with the message of the
    rejection ("An unknown error occurred." for a value that is not an
    [Error], "Submission cancelled." for an [AbortError]).  Either way the processing flag is cleared and session
    name, file set, artifact and preview stay as they are, so the final
    submit can be started again at once. *)
Theorem submit_rejected_response (signal : nat) (response : Response)
    (s : AppState) :
  aborted signal s = false →
  ok response = false →
  submitResume (AwaitFetch signal) (FetchSettled (Responded response)) s
  = (s, Some (AwaitText signal response))
  ∧ (∀ errorText,
       submitResume (AwaitText signal response) (TextSettled errorText) s
       = (mkApp (sessionName s) (files s) false
                (mkStatus (Some error)
                   ("Upload failed: " +:+ pretty (status response) +:+ " "
                    +:+ statusText response +:+ ". " +:+ errorText))
                (isPreviewOpen s) (compiledPdfBlob s)
                (abortControllerRef s) (controllers s),
          None))
  ∧ (∀ e,
       submitResume (AwaitText signal response) (TextRejected e) s
       = (mkApp (sessionName s) (files s) false
                (mkStatus (Some error)
                   (if isAbortError e then "Submission cancelled."
                    else default "An unknown error occurred." (errorMessage e)))
                (isPreviewOpen s) (compiledPdfBlob s)
                (abortControllerRef s) (controllers s),
          None))
  ∧ (∀ v s', submitResume (AwaitText signal response) v s = (s', None) →
       compiledPdfBlob s ≠ None → sessionName s ≠ "" →
       is_Some (handleFinalSubmit s').2).
Proof.
  intros Ha Hok.
  assert (Hcatch : ∀ e,
    finallyBlock signal (submitCatch e s)
    = mkApp (sessionName s) (files s) false
            (mkStatus (Some error)
               (if isAbortError e then "Submission cancelled."
                else default "An unknown error occurred." (errorMessage e)))
            (isPreviewOpen s) (compiledPdfBlob s)
            (abortControllerRef s) (controllers s)).
  { intros e. unfold submitCatch, finallyBlock.
    destruct (isAbortError e), (errorMessage e); cbn [default];
      by rewrite aborted_setUploadStatus, Ha. }
  assert (Htext : ∀ errorText,
    submitResume (AwaitText signal response) (TextSettled errorText) s
    = (mkApp (sessionName s) (files s) false
             (mkStatus (Some error)
                ("Upload failed: " +:+ pretty (status response) +:+ " "
                 +:+ statusText response +:+ ". " +:+ errorText))
             (isPreviewOpen s) (compiledPdfBlob s)
             (abortControllerRef s) (controllers s),
       None)).
  { intros errorText. unfold submitResume. rewrite Ha. by rewrite Hcatch. }
  assert (Hrej : ∀ e,
    submitResume (AwaitText signal response) (TextRejected e) s
    = (mkApp (sessionName s) (files s) false
             (mkStatus (Some error)
                (if isAbortError e then "Submission cancelled."
                 else default "An unknown error occurred." (errorMessage e)))
             (isPreviewOpen s) (compiledPdfBlob s)
             (abortControllerRef s) (controllers s),
       None)).
  { intros e. unfold submitResume. rewrite Ha. by rewrite Hcatch. }
  split; [|split; [exact Htext|split; [exact Hrej|]]].
  - unfold submitResume, fetch. by rewrite Ha, Hok.
  - intros v s' Hv Hb Hn.
    assert (Hs' : ∃ u, s' = mkApp (sessionName s) (files s) false u
                               (isPreviewOpen s) (compiledPdfBlob s)
                               (abortControllerRef s) (controllers s)).
    { destruct v as [net|errorText|e].
      - discriminate Hv.
      - rewrite Htext in Hv. injection Hv as <-. by eexists.
      - rewrite Hrej in Hv. injection Hv as <-. by eexists. }
    destruct Hs' as [u ->]. unfold handleFinalSubmit; cbn.
    rewrite !bool_decide_eq_false_2 by done. cbn. by eexists.
Qed.

Lemma submit_rejected_response_witness :
  submitResume (AwaitText 0 (mkResponse 503 "Service Unavailable"))
               (TextSettled "try later") (handleFinalSubmit previewing).1
  = (mkApp "Q3 Sales Review" [f1] false
           (mkStatus (Some error)
                     "Upload failed: 503 Service Unavailable. try later")
           true (Some (mkBlob ["p1"] "application/pdf")) (Some 0) [false],
     None)
  ∧ submitResume (AwaitText 0 (mkResponse 503 "Service Unavailable"))
                 (TextRejected (Error "network error")) (handleFinalSubmit previewing).1
    = (mkApp "Q3 Sales Review" [f1] false
             (mkStatus (Some error) "network error")
             true (Some (mkBlob ["p1"] "application/pdf")) (Some 0) [false],
       None).
Proof.
  pose proof (submit_rejected_response 0 (mkResponse 503 "Service Unavailable")
                (handleFinalSubmit previewing).1 eq_refl eq_refl)
    as (_ & Htext & Hrej & _).
  split.
  - exact (Htext "try later").
  - exact (Hrej (Error "network error")).
Defined.

(** ** Compile: what a step reads and writes *)

Lemma aborted_controllers (signal : nat) (s1 s2 : AppState) :
  controllers s1 = controllers s2 → aborted signal s1 = aborted signal s2.
Proof. unfold aborted. by intros ->. Qed.

Lemma finallyBlock_cells (signal : nat) (s : AppState) :
  finallyBlock signal s
  = mkApp (sessionName s) (files s)
          (if aborted signal s then isProcessing s else false)
          (uploadStatus s) (isPreviewOpen s) (compiledPdfBlob s)
          (abortControllerRef s) (controllers s).
Proof. unfold finallyBlock. by destruct (aborted signal s), s. Qed.

Lemma compileCatch_cells (e : Thrown) (s : AppState) :
  ∃ u, compileCatch e s
       = mkApp (sessionName s) (files s) (isProcessing s) u (isPreviewOpen s)
               (compiledPdfBlob s) (abortControllerRef s) (controllers s).
Proof.
  unfold compileCatch. destruct (isAbortError e).
  - exists (uploadStatus s). by destruct s.
  - by eexists.
Qed.

Lemma submitCatch_cells (e : Thrown) (s : AppState) :
  ∃ u, submitCatch e s
       = mkApp (sessionName s) (files s) (isProcessing s) u (isPreviewOpen s)
               (compiledPdfBlob s) (abortControllerRef s) (controllers s).
Proof. unfold submitCatch. destruct (isAbortError e); eexists; done. Qed.

(** A compile step that goes on waiting has written nothing and keeps
    its signal. *)
Lemma compileResume_continues (task task' : CompileTask) (v : CompileSettled)
    (s s' : AppState) :
  compileResume task v s = (s', Some task') →
  s' = s ∧ compileSignal task' = compileSignal task.
Proof.
  assert (Hhead : ∀ signal rest m,
            loopHead signal rest m s = (s', Some task') →
            s' = s ∧ compileSignal task' = signal).
  { intros signal [|f rest] m; cbn.
    - by intros [= <- <-].
    - destruct (aborted signal s); [discriminate|]. by intros [= <- <-]. }
  destruct task as [signal fs|signal f rest m|signal m], v as [|[|msg|pdf]|];
    cbn [compileResume compileSignal]; try discriminate;
    try (by intros [= <- <-]); apply Hhead.
Qed.

(** A compile step that ends leaves session name, file set and the
    controllers alone, and clears the processing flag unless its own
    signal is aborted. *)
Lemma compileResume_ends (task : CompileTask) (v : CompileSettled)
    (s s' : AppState) :
  compileResume task v s = (s', None) →
  ∃ u o b,
    s' = mkApp (sessionName s) (files s)
               (if aborted (compileSignal task) s then isProcessing s else false)
               u o b (abortControllerRef s) (controllers s).
Proof.
  assert (Hcatch : ∀ signal e,
            ∃ u o b, finallyBlock signal (compileCatch e s)
                     = mkApp (sessionName s) (files s)
                             (if aborted signal s then isProcessing s else false)
                             u o b (abortControllerRef s) (controllers s)).
  { intros signal e. destruct (compileCatch_cells e s) as [u ->].
    rewrite finallyBlock_cells.
    rewrite (aborted_controllers signal _ s) by done. by eexists _, _, _. }
  assert (Hhead : ∀ signal rest m,
            loopHead signal rest m s = (s', None) →
            ∃ u o b, s' = mkApp (sessionName s) (files s)
                             (if aborted signal s then isProcessing s else false)
                             u o b (abortControllerRef s) (controllers s)).
  { intros signal [|f rest] m; cbn; [discriminate|].
    destruct (aborted signal s) eqn:Ha; [|discriminate].
    intros [= <-]. destruct (Hcatch signal (DOMException "Aborted by user" "AbortError"))
      as (u & o & b & ->). rewrite Ha. by eexists _, _, _. }
  destruct task as [signal fs|signal f rest m|signal m], v as [|[|msg|pdf]|];
    cbn [compileResume compileSignal]; try discriminate; try apply Hhead.
  - intros [= <-]. apply Hcatch.
  - intros [= <-]. apply Hcatch.
  - intros [= <-]. unfold compileFinish. rewrite finallyBlock_cells.
    rewrite (aborted_controllers signal _ s) by done. by eexists _, _, _.
Qed.

(** X9: no step of a compile, at any of its awaits and however the
    promise settles, changes the session name, the file set, the ref or
    any controller. *)
Theorem compile_never_touches_session (task : CompileTask) (v : CompileSettled)
    (s : AppState) :
  sessionName (compileResume task v s).1 = sessionName s
  ∧ files (compileResume task v s).1 = files s
  ∧ abortControllerRef (compileResume task v s).1 = abortControllerRef s
  ∧ controllers (compileResume task v s).1 = controllers s.
Proof.
  destruct (compileResume task v s) as [s' [task'|]] eqn:E.
  - by apply compileResume_continues in E as [-> _].
  - by apply compileResume_ends in E as (u & o & b & ->).
Qed.

(** X10: what a compile does next, and which pages it has merged,
    depends on the state only through its own signal: two states in
    which that signal reads the same give the same continuation, so
    editing the session name or the file set while the compile is in
    flight changes nothing of what it reads or merges. *)
Theorem compile_reads_only_its_signal (task : CompileTask) (v : CompileSettled)
    (s1 s2 : AppState) :
  aborted (compileSignal task) s1 = aborted (compileSignal task) s2 →
  (compileResume task v s1).2 = (compileResume task v s2).2.
Proof.
  intros Ha.
  assert (Hhead : ∀ rest m,
            (loopHead (compileSignal task) rest m s1).2
            = (loopHead (compileSignal task) rest m s2).2).
  { intros [|f rest] m; cbn; [done|]. rewrite Ha.
    by destruct (aborted (compileSignal task) s2). }
  destruct task as [signal fs|signal f rest m|signal m], v as [|[|msg|pdf]|];
    cbn [compileResume compileSignal snd] in *; try done; apply Hhead.
Qed.

Lemma compile_reads_only_its_signal_witness :
  (compileResume (AwaitFile 0 f1 [f3] []) (FileSettled (Loaded ["p1"]))
     (handleFilesAdded [f2]
        (setSessionName "renamed"
           (compileRun [Created] (handleCompileAndReview (withFiles [f1; f3]))).1))).2
  = Some (AwaitFile 0 f3 [] ["p1"]).
Proof.
  rewrite (compile_reads_only_its_signal (AwaitFile 0 f1 [f3] [])
             (FileSettled (Loaded ["p1"]))
             (handleFilesAdded [f2]
                (setSessionName "renamed"
                   (compileRun [Created]
                      (handleCompileAndReview (withFiles [f1; f3]))).1))
             (compileRun [Created] (handleCompileAndReview (withFiles [f1; f3]))).1
             eq_refl).
  reflexivity.
Defined.

(** A submit step that goes on waiting has written nothing and keeps its
    signal. *)
Lemma submitResume_continues (task task' : SubmitTask) (v : SubmitSettled)
    (s s' : AppState) :
  submitResume task v s = (s', Some task') →
  s' = s ∧ submitSignal task' = submitSignal task.
Proof.
  destruct task as [signal|signal r], v as [net|txt|e];
    cbn [submitResume submitSignal]; try (by intros [= <- <-]).
  - destruct (fetch signal net s) as [r|e]; [|discriminate].
    destruct (ok r); [discriminate|]. by intros [= <- <-].
  - destruct (aborted signal s); discriminate.
  - destruct (aborted signal s); discriminate.
Qed.

(** A submit step that ends leaves the controllers alone and clears the
    processing flag unless its own signal is aborted; with the signal
    aborted it leaves session name, file set, artifact and preview
    alone as well. *)
Lemma submitResume_ends (task : SubmitTask) (v : SubmitSettled) (s s' : AppState) :
  submitResume task v s = (s', None) →
  (∃ n fs u o b,
     s' = mkApp n fs
                (if aborted (submitSignal task) s then isProcessing s else false)
                u o b (abortControllerRef s) (controllers s)
     ∧ (o = isPreviewOpen s ∧ b = compiledPdfBlob s ∨ o = false ∧ b = None))
  ∧ (aborted (submitSignal task) s = true →
     ∃ u, s' = mkApp (sessionName s) (files s) (isProcessing s) u
                     (isPreviewOpen s) (compiledPdfBlob s)
                     (abortControllerRef s) (controllers s)).
Proof.
  assert (Hcatch : ∀ signal e,
     (∃ n fs u o b,
        finallyBlock signal (submitCatch e s)
        = mkApp n fs (if aborted signal s then isProcessing s else false)
                u o b (abortControllerRef s) (controllers s)
        ∧ (o = isPreviewOpen s ∧ b = compiledPdfBlob s ∨ o = false ∧ b = None))
     ∧ (aborted signal s = true →
        ∃ u, finallyBlock signal (submitCatch e s)
             = mkApp (sessionName s) (files s) (isProcessing s) u
                     (isPreviewOpen s) (compiledPdfBlob s)
                     (abortControllerRef s) (controllers s))).
  { intros signal e. destruct (submitCatch_cells e s) as [u ->].
    rewrite finallyBlock_cells.
    rewrite (aborted_controllers signal _ s) by done.
    cbn [sessionName files isProcessing uploadStatus isPreviewOpen
         compiledPdfBlob abortControllerRef controllers].
    split.
    - eexists _, _, _, _, _. split; [done|]. by left.
    - intros ->. by eexists. }
  destruct task as [signal|signal r], v as [net|txt|e0];
    cbn [submitResume submitSignal]; try discriminate.
  - unfold fetch. destruct (aborted signal s) eqn:Ha.
    + intros [= <-].
      pose proof (Hcatch signal (DOMException "The operation was aborted." "AbortError")) as H.
      by rewrite Ha in H.
    + destruct net as [r|e].
      * destruct (ok r); [|discriminate]. intros [= <-].
        unfold submitSucceeded. rewrite finallyBlock_cells.
        rewrite (aborted_controllers signal _ s) by done. rewrite Ha. cbn.
        split; [|discriminate]. eexists _, _, _, _, _. split; [done|]. by right.
      * intros [= <-]. pose proof (Hcatch signal e) as H. by rewrite Ha in H.
  - destruct (aborted signal s) eqn:Ha; intros [= <-].
    + pose proof (Hcatch signal (DOMException "The operation was aborted." "AbortError")) as H.
      by rewrite Ha in H.
    + match goal with |- context [submitCatch ?e s] =>
        pose proof (Hcatch signal e) as H end.
      by rewrite Ha in H.
  - destruct (aborted signal s) eqn:Ha; intros [= <-].
    + pose proof (Hcatch signal (DOMException "The operation was aborted." "AbortError")) as H.
      by rewrite Ha in H.
    + pose proof (Hcatch signal e0) as H. by rewrite Ha in H.
Qed.

(** X11: an operation whose token has been aborted, compile or submit,
    changes neither the processing flag nor the session name nor the
    file set when its promise settles, however it settles: it cannot
    disturb an operation started after the Reset. *)
Theorem stale_operation_keeps_flag (s : AppState) :
  (∀ task v, aborted (compileSignal task) s = true →
     isProcessing (compileResume task v s).1 = isProcessing s
     ∧ sessionName (compileResume task v s).1 = sessionName s
     ∧ files (compileResume task v s).1 = files s)
  ∧ (∀ task v, aborted (submitSignal task) s = true →
       isProcessing (submitResume task v s).1 = isProcessing s
       ∧ sessionName (submitResume task v s).1 = sessionName s
       ∧ files (submitResume task v s).1 = files s).
Proof.
  split; intros task v Ha.
  - destruct (compileResume task v s) as [s' [task'|]] eqn:E.
    + by apply compileResume_continues in E as [-> _].
    + apply compileResume_ends in E as (u & o & b & ->). by rewrite Ha.
  - destruct (submitResume task v s) as [s' [task'|]] eqn:E.
    + by apply submitResume_continues in E as [-> _].
    + apply submitResume_ends in E as [_ H]. by destruct (H Ha) as [u ->].
Qed.

Lemma stale_operation_keeps_flag_witness :
  isProcessing
    (compileResume (AwaitFile 0 f1 [] []) (FileSettled (LoadThrew "bad"))
       (handleCompileAndReview
          (mkApp "next" [f3] false noStatus false None (Some 0) [true])).1).1
  = true.
Proof.
  rewrite (proj1 (proj1 (stale_operation_keeps_flag
             (handleCompileAndReview
                (mkApp "next" [f3] false noStatus false None (Some 0) [true])).1)
             (AwaitFile 0 f1 [] []) (FileSettled (LoadThrew "bad")) eq_refl)).
  reflexivity.
Defined.

(** ** From one operation to the next *)

Lemma compileRun_success (s : AppState) (docs : list PDFDocument) :
  isSubmitDisabled s = false →
  length docs = length (files s) →
  compileRun (Created :: ((λ d, FileSettled (Loaded d)) <$> docs) ++ [Saved])
             (handleCompileAndReview s)
  = (mkApp (sessionName s) (files s) false noStatus true
           (Some (mkBlob (save (concat docs)) "application/pdf"))
           (Some (length (controllers s))) (controllers s ++ [false]),
     None).
Proof.
  intros Hguard Hlen.
  rewrite handleCompileAndReview_starts by done.
  cbn [compileRun compileResume].
  rewrite compileRun_loaded by (done || apply aborted_fresh).
  cbn [compileRun compileResume]. unfold compileFinish. rewrite finallyBlock_cells.
  replace (aborted _ _) with false; [done|].
  symmetry. unfold aborted; cbn. by rewrite list_lookup_middle.
Qed.

Lemma isSubmitDisabled_false (s : AppState) :
  isSubmitDisabled s = false ↔
  sessionName s ≠ "" ∧ files s ≠ [] ∧ isProcessing s = false.
Proof.
  unfold isSubmitDisabled. rewrite !orb_false_iff, !bool_decide_eq_false.
  split.
  - intros [[Hn Hf] Hp]. split; [done|]. split; [|done].
    intros E. apply Hf. by rewrite E.
  - intros (Hn & Hf & Hp). split; [split|]; [done| |done].
    intros E. apply Hf. by destruct (files s).
Qed.

(** X12: after a compile that ran to its end, the final submit starts
    and its request carries the session name, the saved merge of the
    inputs as the file (their pages in order, or one blank page when
    they have none), and the derived file name (session names over the
    code units 0-255). *)
Theorem compiled_artifact_is_submitted (s : AppState) (docs : list PDFDocument) :
  isSubmitDisabled s = false →
  length docs = length (files s) →
  formData
    (compileRun (Created :: ((λ d, FileSettled (Loaded d)) <$> docs) ++ [Saved])
                (handleCompileAndReview s)).1
  = Some (mkFormData (sessionName s)
            (mkCompiledFile (mkBlob (save (concat docs)) "application/pdf")
                            (compiledFileName (sessionName s)) "application/pdf")
            (compiledFileName (sessionName s)))
  ∧ (concat docs ≠ [] → save (concat docs) = concat docs)
  ∧ (handleFinalSubmit
       (compileRun (Created :: ((λ d, FileSettled (Loaded d)) <$> docs) ++ [Saved])
                   (handleCompileAndReview s)).1).2
    = Some (AwaitFetch (S (length (controllers s)))).
Proof.
  intros Hguard Hlen. rewrite compileRun_success by done.
  apply isSubmitDisabled_false in Hguard as (Hn & _ & _).
  unfold formData, handleFinalSubmit;
    cbn [compiledPdfBlob sessionName isProcessing controllers fst snd].
  rewrite !bool_decide_eq_false_2 by done. cbn [orb].
  split; [done|]. split; [apply save_pages|].
  cbn [snd]. rewrite length_app. cbn [length]. do 2 f_equal. lia.
Qed.

Lemma compiled_artifact_is_submitted_witness :
  formData
    (compileRun [Created; FileSettled (Loaded ["a1"; "a2"]); FileSettled (Loaded ["b1"]);
                 Saved]
                (handleCompileAndReview (withFiles [f1; f3]))).1
  = Some (mkFormData "Q3 Sales Review"
            (mkCompiledFile (mkBlob ["a1"; "a2"; "b1"] "application/pdf")
                            "Q3_Sales_Review_compiled.pdf" "application/pdf")
            "Q3_Sales_Review_compiled.pdf").
Proof.
  exact (proj1 (compiled_artifact_is_submitted (withFiles [f1; f3])
                  [["a1"; "a2"]; ["b1"]] eq_refl eq_refl)).
Defined.

(** X13: a compile that failed on a read or on a parse leaves the
    component ready for the same compile: the guard passes again, and a
    second attempt starts over the same files with a controller of its
    own. *)
Theorem compile_failure_can_retry (s : AppState) (docs : list PDFDocument)
    (o : FileOutcome) :
  isSubmitDisabled s = false →
  length docs < length (files s) →
  (∀ d, o ≠ Loaded d) →
  ∃ s',
    compileRun (Created :: ((λ d, FileSettled (Loaded d)) <$> docs)
                  ++ [FileSettled o])
               (handleCompileAndReview s) = (s', None)
    ∧ isSubmitDisabled s' = false
    ∧ (handleCompileAndReview s').2
      = Some (AwaitCreate (S (length (controllers s))) (files s)).
Proof.
  intros Hguard Hlen Hbad.
  assert (H : ∃ m,
    compileRun (Created :: ((λ d, FileSettled (Loaded d)) <$> docs)
                  ++ [FileSettled o])
               (handleCompileAndReview s)
    = (mkApp (sessionName s) (files s) false (mkStatus (Some error) m)
             (isPreviewOpen s) (compiledPdfBlob s)
             (Some (length (controllers s))) (controllers s ++ [false]), None)).
  { destruct o as [|m|d]; [| |by destruct (Hbad d)].
    - eexists. by apply (compileRun_failure s docs ReadRejected NotAnError).
    - eexists. by apply (compileRun_failure s docs (LoadThrew m) (Error m)). }
  destruct H as [m ->]. eexists. split; [done|].
  pose proof Hguard as Hg. apply isSubmitDisabled_false in Hg as (Hn & Hf & Hp).
  assert (Hg' : isSubmitDisabled
            (mkApp (sessionName s) (files s) false (mkStatus (Some error) m)
               (isPreviewOpen s) (compiledPdfBlob s)
               (Some (length (controllers s))) (controllers s ++ [false])) = false).
  { by apply isSubmitDisabled_false. }
  split; [exact Hg'|].
  rewrite handleCompileAndReview_starts by done. cbn.
  rewrite length_app. cbn. do 2 f_equal. lia.
Qed.

Lemma compile_failure_can_retry_witness :
  (handleCompileAndReview
     (compileRun [Created; FileSettled ReadRejected]
                 (handleCompileAndReview (withFiles [f1; f3]))).1).2
  = Some (AwaitCreate 1 [f1; f3]).
Proof.
  destruct (compile_failure_can_retry (withFiles [f1; f3]) [] ReadRejected
              eq_refl (le_S _ _ (le_n 1)) (λ d H, eq_ind ReadRejected
                 (λ o, match o with Loaded _ => False | _ => True end) I _ H))
    as (s' & Hrun & _ & Hnext).
  cbn [fmap list_fmap app] in Hrun. rewrite Hrun. exact Hnext.
Defined.

(** ** Invariants of the component with its operations in flight *)

Lemma sysRun_snoc (es : list Event) (e : Event) (σ : Sys) :
  sysRun (es ++ [e]) σ = sysStep (sysRun es σ) e.
Proof. unfold sysRun. by rewrite foldl_snoc. Qed.

Lemma reachable_ind (P : Sys → Prop) :
  P initialSys →
  (∀ σ e, reachable σ → P σ → P (sysStep σ e)) →
  ∀ σ, reachable σ → P σ.
Proof.
  intros H0 Hstep σ [es ->]. induction es as [|e es IH] using rev_ind; [exact H0|].
  rewrite sysRun_snoc. apply Hstep; [by exists es|exact IH].
Qed.

Lemma compileResume_previewConsistent (task : CompileTask) (v : CompileSettled)
    (s : AppState) :
  previewConsistent s → previewConsistent (compileResume task v s).1.
Proof.
  intros Hs.
  assert (Hcatch : ∀ signal e, previewConsistent (finallyBlock signal (compileCatch e s))).
  { intros signal e. destruct (compileCatch_cells e s) as [u ->].
    rewrite finallyBlock_cells. exact Hs. }
  assert (Hhead : ∀ signal rest m, previewConsistent (loopHead signal rest m s).1).
  { intros signal [|f rest] m; cbn; [done|].
    destruct (aborted signal s); [apply Hcatch|done]. }
  destruct task as [signal fs|signal f rest m|signal m], v as [|[|msg|pdf]|];
    cbn [compileResume fst]; try done; try apply Hhead; try apply Hcatch.
  unfold compileFinish. rewrite finallyBlock_cells. split; cbn.
  - split; [discriminate|done].
  - by intros blob [= <-].
Qed.

Lemma submitResume_previewConsistent (task : SubmitTask) (v : SubmitSettled)
    (s : AppState) :
  previewConsistent s → previewConsistent (submitResume task v s).1.
Proof.
  intros Hs. destruct (submitResume task v s) as [s' [task'|]] eqn:E; cbn.
  - by apply submitResume_continues in E as [-> _].
  - apply submitResume_ends in E as [(n & fs & u & o & b & -> & Hob) _].
    destruct Hob as [[-> ->]|[-> ->]]; [exact Hs|].
    split; cbn; [split; [discriminate|done]|discriminate].
Qed.

(** X14: in every state the component can reach, by any sequence of
    operator actions and settled promises, the preview is open exactly
    when an artifact is stored, so the preview dialog is rendered
    exactly when the preview flag is set, and the artifact is a PDF
    blob. *)
Theorem reachable_preview_has_artifact (σ : Sys) :
  reachable σ →
  previewConsistent (component σ)
  ∧ previewShown (component σ) = isPreviewOpen (component σ).
Proof.
  intros Hr.
  assert (H : previewConsistent (component σ)).
  { revert σ Hr. apply reachable_ind.
    - split; cbn; [split; [discriminate|done]|discriminate].
    - intros σ e _ Hs.
      assert (Hclosed : ∀ s, previewConsistent (handleClosePreview s)).
      { intros s. split; cbn; [split; [discriminate|done]|discriminate]. }
      destruct e; cbn [sysStep]; try exact Hs.
      + apply Hclosed.
      + rewrite handleReset_cells. split; cbn; [split; [discriminate|done]|discriminate].
      + unfold handleCompileAndReview. by destruct (isSubmitDisabled (component σ)).
      + unfold handleFinalSubmit. by destruct (_ || _ || _).
      + destruct (inflight σ !! signal) as [[task|task]|]; try exact Hs.
        pose proof (compileResume_previewConsistent task v _ Hs).
        by destruct (compileResume task v (component σ)).
      + destruct (inflight σ !! signal) as [[task|task]|]; try exact Hs.
        pose proof (submitResume_previewConsistent task v _ Hs).
        by destruct (submitResume task v (component σ)). }
  split; [exact H|]. unfold previewShown. destruct H as [[H1 H2] _].
  destruct (isPreviewOpen (component σ)); [|done]. cbn.
  apply bool_decide_eq_true_2. by apply H1.
Qed.

Lemma reachable_preview_has_artifact_witness :
  previewShown
    (component (sysRun [SessionNameChanged "Q3"; FilesAdded [f1]; FormSubmitted;
                        CompileSettles 0 Created;
                        CompileSettles 0 (FileSettled (Loaded ["p1"]));
                        CompileSettles 0 Saved] initialSys))
  = isPreviewOpen
      (component (sysRun [SessionNameChanged "Q3"; FilesAdded [f1]; FormSubmitted;
                          CompileSettles 0 Created;
                          CompileSettles 0 (FileSettled (Loaded ["p1"]));
                          CompileSettles 0 Saved] initialSys)).
Proof.
  apply reachable_preview_has_artifact. eexists. reflexivity.
Defined.

Example sysRun_ex :
  component (sysRun [SessionNameChanged "Q3"; FilesAdded [f1]; FormSubmitted;
                     CompileSettles 0 Created;
                     CompileSettles 0 (FileSettled (Loaded ["p1"]));
                     CompileSettles 0 Saved;
                     FinalSubmitClicked;
                     SubmitSettles 1 (FetchSettled (Responded (mkResponse 200 "OK")))]
                    initialSys)
  = mkApp "" [] false
          (mkStatus (Some success) "Upload successful! Your merged PDF was sent.")
          false None (Some 1) [false; false].
Proof. vm_compute. reflexivity. Qed.

Lemma aborted_handleReset_false (s : AppState) (c : nat) :
  c < length (controllers s) →
  aborted c (handleReset s) = false →
  aborted c s = false ∧ abortControllerRef s ≠ Some c.
Proof.
  intros Hlt. rewrite handleReset_cells. unfold aborted, abortCurrent; cbn.
  destruct (abortControllerRef s) as [c'|]; cbn.
  - destruct (decide (c' = c)) as [->|Hne].
    + by rewrite list_lookup_insert_eq.
    + rewrite list_lookup_insert_ne by done. intros H. split; [done|congruence].
  - done.
Qed.

Lemma aborted_newAbortController (s : AppState) (c : nat) :
  c < length (controllers s) →
  aborted c (newAbortController s) = aborted c s.
Proof. intros Hlt. unfold aborted; cbn. by rewrite lookup_app_l. Qed.

(** Writing cells other than the processing flag and the controllers
    keeps the invariant. *)
Lemma sysInv_cells (s s' : AppState) (m : gmap nat Task) :
  isProcessing s' = isProcessing s →
  abortControllerRef s' = abortControllerRef s →
  controllers s' = controllers s →
  sysInv (mkSys s m) → sysInv (mkSys s' m).
Proof.
  intros Hp Hr Hc (Hv & Ho & Hcur & Hflag). unfold sysInv, refValid, live, aborted in *.
  cbn in *. rewrite Hp, Hr, Hc. done.
Qed.

(** An operation that goes on waiting under the same signal. *)
Lemma sysInv_continues (s : AppState) (m : gmap nat Task) (c0 : nat) (t0 t' : Task) :
  m !! c0 = Some t0 → taskSignal t' = c0 →
  sysInv (mkSys s m) → sysInv (mkSys s (<[c0 := t']> m)).
Proof.
  intros Hm Ht (Hv & Ho & Hcur & Hflag). unfold sysInv in *; cbn in *.
  split; [done|]. split; [|split].
  - intros c t. destruct (decide (c0 = c)) as [<-|Hne].
    + rewrite lookup_insert_eq. intros [= <-]. split; [done|]. by apply (Ho c0 t0).
    + rewrite lookup_insert_ne by done. apply Ho.
  - intros c t. destruct (decide (c0 = c)) as [<-|Hne].
    + rewrite lookup_insert_eq. intros _. by apply (Hcur c0 t0).
    + rewrite lookup_insert_ne by done. apply Hcur.
  - rewrite Hflag. split; intros (c & t & Hc & Hl).
    + destruct (decide (c0 = c)) as [<-|Hne].
      * exists c0, t'. by rewrite lookup_insert_eq.
      * exists c, t. by rewrite lookup_insert_ne.
    + destruct (decide (c0 = c)) as [<-|Hne].
      * by exists c0, t0.
      * rewrite lookup_insert_ne in Hc by done. by exists c, t.
Qed.

(** An operation that ends: it clears the processing flag unless its
    signal is aborted, and leaves the controllers alone. *)
Lemma sysInv_ends (s s' : AppState) (m : gmap nat Task) (c0 : nat) (t0 : Task) :
  m !! c0 = Some t0 →
  isProcessing s' = (if aborted c0 s then isProcessing s else false) →
  abortControllerRef s' = abortControllerRef s →
  controllers s' = controllers s →
  sysInv (mkSys s m) → sysInv (mkSys s' (delete c0 m)).
Proof.
  intros Hm Hp Hr Hc (Hv & Ho & Hcur & Hflag).
  unfold sysInv, refValid, live, aborted in *; cbn in *.
  rewrite Hr, Hc. split; [done|]. split; [|split].
  - intros c t Hl. apply lookup_delete_Some in Hl as [_ Hl]. by apply (Ho c t).
  - intros c t Hl. apply lookup_delete_Some in Hl as [_ Hl]. by apply (Hcur c t).
  - rewrite Hp. destruct (default false (controllers s !! c0)) eqn:Ha.
    + rewrite Hflag. split; intros (c & t & Hl & Hlive).
      * exists c, t. split; [|done]. apply lookup_delete_Some. split; [|done].
        intros <-. congruence.
      * apply lookup_delete_Some in Hl as [_ Hl]. by exists c, t.
    + split; [discriminate|]. intros (c & t & Hl & Hlive).
      apply lookup_delete_Some in Hl as [Hne Hl].
      pose proof (Hcur c t Hl Hlive) as H1. pose proof (Hcur c0 t0 Hm Ha) as H2.
      congruence.
Qed.

(** An operation that starts: the guard has seen the flag clear. *)
Lemma sysInv_starts (s s' : AppState) (m : gmap nat Task) (t : Task) :
  isProcessing s = false →
  taskSignal t = length (controllers s) →
  isProcessing s' = true →
  abortControllerRef s' = Some (length (controllers s)) →
  controllers s' = controllers s ++ [false] →
  sysInv (mkSys s m) →
  sysInv (mkSys s' (<[length (controllers s) := t]> m)).
Proof.
  intros Hp Ht Hp' Hr Hc (Hv & Ho & Hcur & Hflag).
  assert (Hnone : ∀ c t0, m !! c = Some t0 → aborted c s = true).
  { intros c t0 Hl. destruct (aborted c s) eqn:Ha; [done|].
    cbn in Hflag. rewrite Hp in Hflag.
    assert (false = true); [|done]. apply Hflag. by exists c, t0. }
  unfold sysInv, refValid, live, aborted in *; cbn in *.
  rewrite Hr, Hc, Hp', length_app. cbn. split; [|split; [|split]].
  - intros c [= <-]. lia.
  - intros c t0. destruct (decide (length (controllers s) = c)) as [<-|Hne].
    + rewrite lookup_insert_eq. intros [= <-]. split; [done|lia].
    + rewrite lookup_insert_ne by done. intros Hl.
      destruct (Ho c t0 Hl). split; [done|lia].
  - intros c t0. destruct (decide (length (controllers s) = c)) as [<-|Hne]; [done|].
    rewrite lookup_insert_ne by done. intros Hl.
    destruct (Ho c t0 Hl) as [_ Hlt]. rewrite lookup_app_l by done.
    intros Ha. pose proof (Hnone c t0 Hl). congruence.
  - split; [|done]. intros _. exists (length (controllers s)), t.
    rewrite lookup_insert_eq. split; [done|]. by rewrite list_lookup_middle.
Qed.

Lemma sysInv_step (σ : Sys) (e : Event) : sysInv σ → sysInv (sysStep σ e).
Proof.
  intros Hs. destruct σ as [s m].
  destruct e; cbn [sysStep component inflight];
    try (by apply (sysInv_cells s)).
  - (* ResetClicked *)
    destruct Hs as (Hv & Ho & Hcur & Hflag); cbn in *.
    assert (Hdead : ∀ c t, m !! c = Some t → live (handleReset s) c → False).
    { intros c t Hl Hlive. destruct (Ho c t Hl) as [_ Hlt].
      destruct (aborted_handleReset_false s c Hlt Hlive) as [Ha Hne].
      apply Hne. by apply (Hcur c t). }
    split; [by apply refValid_handleReset|]. cbn [component inflight].
    split; [|split].
    + intros c t Hl. destruct (Ho c t Hl) as [? Hlt]. split; [done|].
      rewrite handleReset_cells; cbn. unfold abortCurrent.
      destruct (abortControllerRef s); cbn; by rewrite ?length_insert.
    + intros c t Hl Hlive. by destruct (Hdead c t Hl Hlive).
    + split.
      * rewrite handleReset_cells. discriminate.
      * intros (c & t & Hl & Hlive). by destruct (Hdead c t Hl Hlive).
  - (* FormSubmitted *)
    unfold handleCompileAndReview.
    destruct (isSubmitDisabled s) eqn:Hg; [exact Hs|].
    apply isSubmitDisabled_false in Hg as (_ & _ & Hp). cbn [compileSignal].
    by apply (sysInv_starts s).
  - (* FinalSubmitClicked *)
    unfold handleFinalSubmit.
    destruct (_ || _ || isProcessing s) eqn:Hg; [exact Hs|].
    apply orb_false_iff in Hg as [_ Hp]. cbn [submitSignal].
    by apply (sysInv_starts s).
  - (* CompileSettles *)
    destruct (m !! signal) as [[task|task]|] eqn:Hl; try exact Hs.
    assert (Hsig : compileSignal task = signal).
    { destruct Hs as (_ & Ho & _). by destruct (Ho signal _ Hl). }
    destruct (compileResume task v s) as [s' [task'|]] eqn:E; cbn [fmap option_fmap option_map settled].
    + apply compileResume_continues in E as [-> E].
      apply (sysInv_continues s m signal (CompileT task)); [done| |done].
      cbn. congruence.
    + apply compileResume_ends in E as (u & o & b & ->). rewrite Hsig.
      by apply (sysInv_ends s _ m signal (CompileT task)).
  - (* SubmitSettles *)
    destruct (m !! signal) as [[task|task]|] eqn:Hl; try exact Hs.
    assert (Hsig : submitSignal task = signal).
    { destruct Hs as (_ & Ho & _). by destruct (Ho signal _ Hl). }
    destruct (submitResume task v s) as [s' [task'|]] eqn:E; cbn [fmap option_fmap option_map settled].
    + apply submitResume_continues in E as [-> E].
      apply (sysInv_continues s m signal (SubmitT task)); [done| |done].
      cbn. congruence.
    + apply submitResume_ends in E as [(n & fs & u & o & b & -> & _) _].
      rewrite Hsig. by apply (sysInv_ends s _ m signal (SubmitT task)).
Qed.

Lemma sysInv_reachable (σ : Sys) : reachable σ → sysInv σ.
Proof.
  revert σ. apply reachable_ind.
  - split; [apply refValid_initialState|]. cbn. split; [|split].
    + intros c t Hl. by rewrite lookup_empty in Hl.
    + intros c t Hl. by rewrite lookup_empty in Hl.
    + split; [discriminate|]. intros (c & t & Hl & _). by rewrite lookup_empty in Hl.
  - intros σ e _. apply sysInv_step.
Qed.

(** X15: in every state the component can reach, the processing flag is
    set exactly when an operation whose token is not aborted is in
    flight; there is at most one such operation, and it is the one that
    owns the controller the ref points to. *)
Theorem reachable_one_live_operation (σ : Sys) :
  reachable σ →
  (isProcessing (component σ) = true ↔
   ∃ c t, inflight σ !! c = Some t ∧ live (component σ) c)
  ∧ (∀ c c' t t',
       inflight σ !! c = Some t → live (component σ) c →
       inflight σ !! c' = Some t' → live (component σ) c' →
       c = c' ∧ t = t' ∧ abortControllerRef (component σ) = Some c
       ∧ taskSignal t = c).
Proof.
  intros Hr. destruct (sysInv_reachable σ Hr) as (_ & Ho & Hcur & Hflag).
  split; [exact Hflag|].
  intros c c' t t' Hl Hlive Hl' Hlive'.
  pose proof (Hcur c t Hl Hlive) as H1. pose proof (Hcur c' t' Hl' Hlive') as H2.
  assert (c = c') as <- by congruence.
  split; [done|]. split; [congruence|]. split; [done|]. by destruct (Ho c t Hl).
Qed.

Lemma reachable_one_live_operation_witness :
  isProcessing
    (component (sysRun [SessionNameChanged "Q3"; FilesAdded [f1]; FormSubmitted;
                        ResetClicked; SessionNameChanged "Q4"; FilesAdded [f3];
                        FormSubmitted; CompileSettles 0 Created] initialSys))
  = true
  ↔ ∃ c t,
      inflight (sysRun [SessionNameChanged "Q3"; FilesAdded [f1]; FormSubmitted;
                        ResetClicked; SessionNameChanged "Q4"; FilesAdded [f3];
                        FormSubmitted; CompileSettles 0 Created] initialSys) !! c
      = Some t
      ∧ live (component
                (sysRun [SessionNameChanged "Q3"; FilesAdded [f1]; FormSubmitted;
                         ResetClicked; SessionNameChanged "Q4"; FilesAdded [f3];
                         FormSubmitted; CompileSettles 0 Created] initialSys)) c.
Proof.
  apply reachable_one_live_operation. eexists. reflexivity.
Defined.

(** X16: from every reachable state, Reset cancels every operation in
    flight: after it no operation is live, whatever was started and
    reset before. *)
Theorem reset_cancels_everything_in_flight (σ : Sys) :
  reachable σ →
  ∀ c t, inflight (sysStep σ ResetClicked) !! c = Some t →
         aborted c (component (sysStep σ ResetClicked)) = true.
Proof.
  intros Hr c t Hl.
  assert (Hr' : reachable (sysStep σ ResetClicked)).
  { destruct Hr as [es ->]. exists (es ++ [ResetClicked]). by rewrite sysRun_snoc. }
  destruct (reachable_one_live_operation _ Hr') as [Hflag _].
  destruct (aborted c (component (sysStep σ ResetClicked))) eqn:Ha; [done|].
  assert (H : isProcessing (component (sysStep σ ResetClicked)) = true).
  { apply Hflag. by exists c, t. }
  cbn [sysStep component] in H. by rewrite handleReset_cells in H.
Qed.

Lemma reset_cancels_everything_in_flight_witness :
  aborted 0
    (component
       (sysStep (sysRun [SessionNameChanged "Q3"; FilesAdded [f1]; FormSubmitted]
                        initialSys)
                ResetClicked))
  = true.
Proof.
  apply (reset_cancels_everything_in_flight
           (sysRun [SessionNameChanged "Q3"; FilesAdded [f1]; FormSubmitted] initialSys)
           (ex_intro _ _ eq_refl) 0 (CompileT (AwaitCreate 0 [f1]))).
  vm_compute. reflexivity.
Defined.

Lemma sysStep_controllers (σ : Sys) (e : Event) :
  e ≠ ResetClicked →
  ∃ ext, controllers (component (sysStep σ e)) = controllers (component σ) ++ ext.
Proof.
  intros Hne. destruct σ as [s m].
  destruct e; cbn [sysStep component inflight]; try (by exists []; rewrite app_nil_r).
  - unfold handleCompileAndReview. destruct (isSubmitDisabled s).
    + exists []. by rewrite app_nil_r.
    + by exists [false].
  - unfold handleFinalSubmit. destruct (_ || _ || _).
    + exists []. by rewrite app_nil_r.
    + by exists [false].
  - exists []. rewrite app_nil_r.
    destruct (m !! signal) as [[task|task]|]; try done.
    destruct (compileResume task v s) as [s' [task'|]] eqn:E; cbn.
    + by apply compileResume_continues in E as [-> _].
    + by apply compileResume_ends in E as (u & o & b & ->).
  - exists []. rewrite app_nil_r.
    destruct (m !! signal) as [[task|task]|]; try done.
    destruct (submitResume task v s) as [s' [task'|]] eqn:E; cbn.
    + by apply submitResume_continues in E as [-> _].
    + by apply submitResume_ends in E as [(n & fs & u & o & b & -> & _) _].
Qed.

(** X17: the abort flag of a controller changes in one way only: no
    event ever clears it, no event but Reset sets it, and Reset sets
    only the flag of the controller the ref points to. *)
Theorem only_reset_aborts (σ : Sys) (e : Event) (c : nat) :
  c < length (controllers (component σ)) →
  (aborted c (component σ) = true →
   aborted c (component (sysStep σ e)) = true)
  ∧ (e ≠ ResetClicked →
     aborted c (component (sysStep σ e)) = aborted c (component σ))
  ∧ (abortControllerRef (component σ) ≠ Some c →
     aborted c (component (sysStep σ e)) = aborted c (component σ)).
Proof.
  intros Hlt.
  assert (Hother : e ≠ ResetClicked →
            aborted c (component (sysStep σ e)) = aborted c (component σ)).
  { intros Hne. destruct (sysStep_controllers σ e Hne) as [ext Hext].
    unfold aborted. by rewrite Hext, lookup_app_l. }
  assert (Hreset : aborted c (handleReset (component σ))
                   = aborted c (component σ)
                     || bool_decide (abortControllerRef (component σ) = Some c)).
  { rewrite handleReset_cells. unfold aborted, abortCurrent; cbn.
    destruct (abortControllerRef (component σ)) as [c'|]; cbn.
    - destruct (decide (c' = c)) as [->|Hne].
      + rewrite list_lookup_insert_eq by done. rewrite bool_decide_eq_true_2 by done.
        by rewrite orb_true_r.
      + rewrite list_lookup_insert_ne by done.
        rewrite bool_decide_eq_false_2 by congruence. by rewrite orb_false_r.
    - by rewrite orb_false_r. }
  assert (e = ResetClicked ∨ e ≠ ResetClicked) as [->|Hne]
    by (destruct e; (by left) || (by right)).
  - cbn [sysStep component]. rewrite Hreset. split; [|split].
    + by intros ->.
    + done.
    + intros Href. rewrite bool_decide_eq_false_2 by done. by rewrite orb_false_r.
  - split; [|split]; [|done|]; intros; rewrite Hother by done; done.
Qed.

Lemma only_reset_aborts_witness :
  aborted 0
    (component
       (sysStep (mkSys (mkApp "Q4" [f3] true noStatus false None (Some 1) [true; false])
                       {[ 1 := CompileT (AwaitCreate 1 [f3]) ]})
                ResetClicked))
  = true
  ∧ aborted 1
      (component
         (sysStep (mkSys (mkApp "Q4" [f3] true noStatus false None (Some 1) [true; false])
                         {[ 1 := CompileT (AwaitCreate 1 [f3]) ]})
                  (CompileSettles 1 Created)))
    = false.
Proof.
  split.
  - exact (proj1 (only_reset_aborts
             (mkSys (mkApp "Q4" [f3] true noStatus false None (Some 1) [true; false])
                    {[ 1 := CompileT (AwaitCreate 1 [f3]) ]})
             ResetClicked 0 (le_S _ _ (le_n 1))) eq_refl).
  - rewrite (proj1 (proj2 (only_reset_aborts
               (mkSys (mkApp "Q4" [f3] true noStatus false None (Some 1) [true; false])
                      {[ 1 := CompileT (AwaitCreate 1 [f3]) ]})
               (CompileSettles 1 Created) 1 (le_n 2)))).
    + reflexivity.
    + discriminate.
Defined.

(** X18: closing the preview after a compile that ran to its end drops
    the artifact and keeps the session: name and files are those the
    compile started with, the compile can be started again, and the
    final submit no longer has anything to send. *)
Theorem close_preview_after_compile (s : AppState) (docs : list PDFDocument) :
  isSubmitDisabled s = false →
  length docs = length (files s) →
  handleClosePreview
    (compileRun (Created :: ((λ d, FileSettled (Loaded d)) <$> docs) ++ [Saved])
                (handleCompileAndReview s)).1
  = mkApp (sessionName s) (files s) false noStatus false None
          (Some (length (controllers s))) (controllers s ++ [false])
  ∧ isSubmitDisabled
      (handleClosePreview
         (compileRun (Created :: ((λ d, FileSettled (Loaded d)) <$> docs) ++ [Saved])
                     (handleCompileAndReview s)).1) = false
  ∧ handleFinalSubmit
      (handleClosePreview
         (compileRun (Created :: ((λ d, FileSettled (Loaded d)) <$> docs) ++ [Saved])
                     (handleCompileAndReview s)).1)
    = (handleClosePreview
         (compileRun (Created :: ((λ d, FileSettled (Loaded d)) <$> docs) ++ [Saved])
                     (handleCompileAndReview s)).1,
       None).
Proof.
  intros Hguard Hlen. rewrite compileRun_success by done.
  split; [done|]. split; [|done].
  apply isSubmitDisabled_false in Hguard as (Hn & Hf & Hp).
  apply isSubmitDisabled_false. cbn. done.
Qed.

Lemma close_preview_after_compile_witness :
  handleClosePreview
    (compileRun [Created; FileSettled (Loaded ["p1"]); Saved]
                (handleCompileAndReview (withFiles [f1]))).1
  = mkApp "Q3 Sales Review" [f1] false noStatus false None (Some 0) [false].
Proof.
  exact (proj1 (close_preview_after_compile (withFiles [f1]) [["p1"]]
                  eq_refl eq_refl)).
Defined.
